(** * gfibot.backend.models: the data-transfer schemas of GFI-Bot

    The module [gfibot/backend/models.py] declares pydantic models, with
    the API of pydantic 1.x ([GenericModel] from [pydantic.generics]).
    A class body there is data: an ordered list of annotated fields, some
    with a default.  What the classes *do* (construction from keyword
    arguments, [parse_obj], [.dict()]) is pydantic's interpreter over that
    data.  This development embeds

    - the values the models exchange ([pyval]),
    - the field annotations used by the module ([ftype]),
    - every class of the module as a declaration ([RepoBrief], ...),
    - pydantic's field validators, [validate_model], [BaseModel.validate],
      [parse_obj] and [dict], for the annotations the module uses,
    - the [RepoSort] enumeration and the [GitHubRepo.owner] property,

    and proves the properties the specification states about them. *)

From Stdlib Require Import ZArith List String Ascii Bool Lia.
From Stdlib Require Import Floats.SpecFloat.
Import ListNotations.
Local Open Scope string_scope.
Local Open Scope Z_scope.

Set Implicit Arguments.
Set Warnings "-register-all".

(** ** Values *)

(** A [datetime.datetime] object: the fields of its constructor; [tzinfo]
    is the UTC offset in seconds of an aware datetime. *)
Record datetime := Datetime {
  year : Z; month : Z; day : Z;
  hour : Z; minute : Z; second : Z; microsecond : Z;
  tzinfo : option Z
}.

(** Python values that reach the models: what [json.loads] produces
    (None, bool, int, float, str, list, dict with str keys), datetime
    objects (database documents carry them) and model instances.  A str is
    its UTF-8 byte string.  A dict is kept in insertion order; its keys are
    distinct.  An instance carries its class name, its [__dict__] in field
    order and its [__fields_set__]. *)
Inductive pyval :=
| VNone
| VBool (b : bool)
| VInt (z : Z)
| VFloat (f : spec_float)
| VStr (s : string)
| VDatetime (d : datetime)
| VList (l : list pyval)
| VDict (d : list (string * pyval))
| VModel (cls : string) (attrs : list (string * pyval)) (fields_set : list string).

Definition pydict := list (string * pyval).

(** [d.get(k)] *)
Fixpoint dict_get (k : string) (d : pydict) : option pyval :=
  match d with
  | [] => None
  | (k', v) :: d' => if String.eqb k k' then Some v else dict_get k d'
  end.

Definition dict_keys (d : pydict) : list string := map fst d.

(** ** Field annotations and class declarations *)

(** One line of a class body: [fname: annotation] or
    [fname: annotation = default]. *)
Record field_decl (T : Type) := Field {
  fname : string;
  annotation : T;
  default : option pyval
}.

(** The annotations that occur in the module.  [TDictStrAny] is
    [Dict[str, Any]]; [TModel] is a model class used as a type. *)
Inductive ftype :=
| TAny
| TStr
| TInt
| TFloat
| TBool
| TDatetime
| TOptional (t : ftype)
| TList (t : ftype)
| TDictStrAny
| TModel (name : string) (fields : list (field_decl ftype)).

Notation "n ':::' t" := (Field n t None) (at level 60).
Notation "n ':::' t ':=' d" := (Field n t (Some d)) (at level 60, t at next level).

(** [display_as_type]: how pydantic names a type parameter in the name of
    a concrete generic class. *)
Fixpoint type_name (t : ftype) : string :=
  match t with
  | TAny => "Any"
  | TStr => "str"
  | TInt => "int"
  | TFloat => "float"
  | TBool => "bool"
  | TDatetime => "datetime"
  | TOptional t' => "Optional[" ++ type_name t' ++ "]"
  | TList t' => "List[" ++ type_name t' ++ "]"
  | TDictStrAny => "Dict[str, Any]"
  | TModel n _ => n
  end.

(** *** The classes of models.py, in source order *)

(** [class GFIResponse(GenericModel, Generic[T])]: [GFIResponse T] is the
    concrete class [GFIResponse[T]]. *)
Definition GFIResponse (T : ftype) : ftype :=
  TModel ("GFIResponse[" ++ type_name T ++ "]")
    [ "code" ::: TInt := VInt 200;
      "result" ::: T ].

Definition RepoQuery : ftype :=
  TModel "RepoQuery"
    [ "owner" ::: TStr;
      "name" ::: TStr ].

Definition RepoBrief : ftype :=
  TModel "RepoBrief"
    [ "name" ::: TStr;
      "owner" ::: TStr;
      "description" ::: TOptional TStr;
      "language" ::: TOptional TStr;
      "topics" ::: TList TStr ].

Definition MonthlyCount : ftype :=
  TModel "MonthlyCount"
    [ "month" ::: TDatetime;
      "count" ::: TInt ].

Definition RepoDetail : ftype :=
  TModel "RepoDetail"
    [ "name" ::: TStr;
      "owner" ::: TStr;
      "description" ::: TOptional TStr;
      "language" ::: TOptional TStr;
      "topics" ::: TList TStr;
      "monthly_stars" ::: TList MonthlyCount;
      "monthly_commits" ::: TList MonthlyCount;
      "monthly_issues" ::: TList MonthlyCount;
      "monthly_pulls" ::: TList MonthlyCount ].

(** [class RepoSort(Enum)] *)
Inductive RepoSort := STARS | GFIS | ISSUE_CLOSE_TIME | NEWCOMER_RESOLVE_RATE.

Definition RepoSort_value (m : RepoSort) : string :=
  match m with
  | STARS => "popularity"
  | GFIS => "gfis"
  | ISSUE_CLOSE_TIME => "median_issue_resolve_time"
  | NEWCOMER_RESOLVE_RATE => "newcomer_friendly"
  end.

(** The members in definition order ([list(RepoSort)]). *)
Definition RepoSort_members : list RepoSort :=
  [STARS; GFIS; ISSUE_CLOSE_TIME; NEWCOMER_RESOLVE_RATE].

Definition UserSearchedRepo : ftype :=
  TModel "UserSearchedRepo"
    [ "name" ::: TStr;
      "owner" ::: TStr;
      "created_at" ::: TDatetime;
      "increment" ::: TInt ].

Definition UpdateConfig : ftype :=
  TModel "UpdateConfig"
    [ "task_id" ::: TStr;
      "interval" ::: TInt;
      "begin_time" ::: TDatetime ].

Definition RepoConfig : ftype :=
  TModel "RepoConfig"
    [ "newcomer_threshold" ::: TInt;
      "gfi_threshold" ::: TFloat;
      "need_comment" ::: TBool;
      "issue_tag" ::: TStr ].

Definition Config : ftype :=
  TModel "Config"
    [ "update_config" ::: UpdateConfig;
      "repo_config" ::: RepoConfig ].

Definition GFIBrief : ftype :=
  TModel "GFIBrief"
    [ "name" ::: TStr;
      "owner" ::: TStr;
      "number" ::: TInt;
      "threshold" ::: TFloat;
      "probability" ::: TFloat;
      "last_updated" ::: TDatetime;
      "state" ::: TOptional TStr := VNone;
      "title" ::: TOptional TStr := VNone ].

Definition TrainingResult : ftype :=
  TModel "TrainingResult"
    [ "owner" ::: TStr;
      "name" ::: TStr;
      "issues_train" ::: TInt;
      "issues_test" ::: TInt;
      "n_resolved_issues" ::: TInt;
      "n_newcomer_resolved" ::: TInt;
      "accuracy" ::: TOptional TFloat;
      "auc" ::: TOptional TFloat;
      "last_updated" ::: TDatetime ].

Definition GitHubRepo : ftype :=
  TModel "GitHubRepo"
    [ "full_name" ::: TStr;
      "name" ::: TStr ].

Definition GitHubAppWebhookResponse : ftype :=
  TModel "GitHubAppWebhookResponse"
    [ "sender" ::: TDictStrAny;
      "action" ::: TStr;
      "issue" ::: TOptional TDictStrAny;
      "repository" ::: TOptional GitHubRepo;
      "repositories" ::: TOptional (TList GitHubRepo);
      "repositories_added" ::: TOptional (TList GitHubRepo);
      "repositories_removed" ::: TOptional (TList GitHubRepo) ].

Definition GitHubUserInfo : ftype :=
  TModel "GitHubUserInfo"
    [ "id" ::: TStr;
      "login" ::: TStr;
      "name" ::: TStr;
      "avatar_url" ::: TOptional TStr := VNone;
      "email" ::: TOptional TStr := VNone;
      "url" ::: TOptional TStr := VNone;
      "twitter_username" ::: TOptional TStr := VNone ].

(** ** Validation errors *)

(** One component of an error location: a field name, a list index, or
    pydantic's [__root__]. *)
Inductive loc_item :=
| LField (name : string)
| LIndex (i : nat)
| LRoot.

(** The exception classes of [pydantic.errors] that the validators of this
    module can raise, and a bare [TypeError] or [ValueError] raised inside
    a validator. *)
Inductive error_kind :=
| MissingError
| NoneIsNotAllowedError
| StrError
| IntegerError
| FloatError
| BoolError
| DateTimeError
| ListError
| DictError
| EnumMemberError
| PyTypeError
| PyValueError.

Record error := ErrorWrapper { loc : list loc_item; exc : error_kind }.

(** What a validator returns: the validated value, or the errors that a
    [ValidationError] will carry. *)
Inductive result (A : Type) :=
| Ok (a : A)
| Err (errs : list error).
Arguments Err {A} errs.

Definition at_root (k : error_kind) : list error := [ErrorWrapper [] k].
Definition fail {A} (k : error_kind) : result A := Err (at_root k).

(** An [ErrorWrapper] raised below location [l]. *)
Definition under (l : loc_item) (e : error) : error :=
  ErrorWrapper (l :: loc e) (exc e).

Definition is_ok {A} (r : result A) : bool :=
  match r with Ok _ => true | Err _ => false end.

(** ** Python built-ins *)

(** *** [int(s)] on a plain decimal literal *)

Definition is_digit (c : ascii) : bool :=
  let n := N_of_ascii c in ((48 <=? n) && (n <=? 57))%N.

Definition digit_value (c : ascii) : Z := Z.of_N (N_of_ascii c) - 48.

Fixpoint digits_value (s : string) (acc : Z) : option Z :=
  match s with
  | EmptyString => Some acc
  | String c s' =>
      if is_digit c then digits_value s' (10 * acc + digit_value c) else None
  end.

(** The smallest value [sys.set_int_max_str_digits] accepts for the limit
    on decimal conversions: a literal of at most this many digits converts
    under every configuration. *)
Definition int_max_str_digits_floor : nat := 640.

Definition unsigned_decimal (s : string) : option Z :=
  match s with
  | EmptyString => None
  | _ => if (String.length s <=? int_max_str_digits_floor)%nat
         then digits_value s 0 else None
  end.

(** [int(s)] for [s] of the form [[+-]?[0-9]+]. *)
Definition plain_decimal (s : string) : option Z :=
  match s with
  | String "+"%char r => unsigned_decimal r
  | String "-"%char r => option_map Z.opp (unsigned_decimal r)
  | _ => unsigned_decimal s
  end.

(** *** [int(f)] on a float: truncation toward zero; NaN and the
    infinities raise. *)
Definition int_of_float (f : spec_float) : option Z :=
  match f with
  | S754_zero _ => Some 0
  | S754_infinity _ => None
  | S754_nan => None
  | S754_finite s m e =>
      let a := if 0 <=? e then Zpos m * 2 ^ e else Zpos m / 2 ^ (- e) in
      Some (if s then - a else a)
  end.

(** [f == 1] and [f == 0] for a float [f]. *)
Definition float_is_one (f : spec_float) : bool :=
  match f with
  | S754_finite false m e => (e <=? 0) && (Zpos m =? 2 ^ (- e))
  | _ => false
  end.

Definition float_is_zero (f : spec_float) : bool :=
  match f with S754_zero _ => true | _ => false end.

(** *** [str.lower] and [str.split]

    The words compared below are ASCII, and no character outside ASCII
    lower-cases to a letter that occurs in them, so lower-casing the ASCII
    bytes decides the comparisons exactly. *)
Definition ascii_lower (c : ascii) : ascii :=
  let n := N_of_ascii c in
  if ((65 <=? n) && (n <=? 90))%N then ascii_of_N (n + 32) else c.

Fixpoint str_lower (s : string) : string :=
  match s with
  | EmptyString => EmptyString
  | String c s' => String (ascii_lower c) (str_lower s')
  end.

(** [s.split(sep)] for a one-character separator: the pieces between the
    occurrences of [sep], never empty as a list. *)
Fixpoint str_split (sep : ascii) (s : string) : list string :=
  match s with
  | EmptyString => [EmptyString]
  | String c s' =>
      if Ascii.eqb c sep then EmptyString :: str_split sep s'
      else match str_split sep s' with
           | [] => [String c EmptyString]
           | p :: ps => String c p :: ps
           end
  end.

(** *** Conversions left open

    The remaining conversions pydantic delegates to depend on the float
    printer and parser, on [datetime] arithmetic, on Unicode tables and on
    the interpreter's configuration.  They are taken as given, each
    returning [None] where the Python call raises an exception that
    pydantic turns into a validation error.  (An int beyond the float
    range given for a float field raises an [OverflowError] that pydantic
    lets through; the embedding covers the inputs on which validation
    returns or raises [ValidationError].) *)
Record PyBuiltins := {
  (** [int(s)] for a str that is not a plain decimal literal of at most
      [int_max_str_digits_floor] digits (blanks, underscores, Unicode
      digits, long literals) *)
  int_of_str_other : string -> option Z;
  (** [str(z)] for an int (a [ValueError] beyond the digit limit) *)
  str_of_int : Z -> option string;
  (** [str(f)] for a float *)
  str_of_float : spec_float -> string;
  (** [float(z)] for an int *)
  float_of_int : Z -> option spec_float;
  (** [float(s)] for a str *)
  float_of_str : string -> option spec_float;
  (** [pydantic.datetime_parse.parse_datetime] on a bool, int, float or
      str: unix seconds or milliseconds, or an ISO 8601 string *)
  datetime_of_scalar : pyval -> option datetime;
  (** [dict(v)] for a list or str [v], when every key is a str (as
      keyword arguments require) *)
  kwargs_of_iterable : pyval -> option pydict;
  (** the dict that the [Dict[str, Any]] validator builds from [dict(v)]
      for a list or str [v], its keys validated as str *)
  mapping_of_iterable : pyval -> option pydict
}.

(** ** pydantic's validators *)

Section Validation.

Variable py : PyBuiltins.

Definition of_option {A} (k : error_kind) (f : A -> pyval) (o : option A) : result pyval :=
  match o with Some a => Ok (f a) | None => fail k end.

(** [int(s)] for a str. *)
Definition int_of_str (s : string) : option Z :=
  match plain_decimal s with
  | Some z => Some z
  | None => int_of_str_other py s
  end.

(** [pydantic.validators.str_validator]: a str is returned, an int, float
    or bool goes through [str], anything else is a [StrError]. *)
Definition str_validator (v : pyval) : result pyval :=
  match v with
  | VStr s => Ok (VStr s)
  | VInt z => of_option PyValueError VStr (str_of_int py z)
  | VFloat f => Ok (VStr (str_of_float py f))
  | VBool b => Ok (VStr (if b then "True" else "False"))
  | _ => fail StrError
  end.

(** [pydantic.validators.int_validator]: an int that is not a bool is
    returned; otherwise [int(v)], whose failure is an [IntegerError]. *)
Definition int_validator (v : pyval) : result pyval :=
  match v with
  | VInt z => Ok (VInt z)
  | VBool b => Ok (VInt (Z.b2z b))
  | VFloat f => of_option IntegerError VInt (int_of_float f)
  | VStr s => of_option IntegerError VInt (int_of_str s)
  | _ => fail IntegerError
  end.

(** [pydantic.validators.float_validator]: a float is returned; otherwise
    [float(v)], whose failure is a [FloatError]. *)
Definition float_validator (v : pyval) : result pyval :=
  match v with
  | VFloat f => Ok (VFloat f)
  | VInt z => of_option FloatError VFloat (float_of_int py z)
  | VBool b => of_option FloatError VFloat (float_of_int py (Z.b2z b))
  | VStr s => of_option FloatError VFloat (float_of_str py s)
  | _ => fail FloatError
  end.

Definition BOOL_FALSE : list string := ["0"; "off"; "f"; "false"; "n"; "no"].
Definition BOOL_TRUE : list string := ["1"; "on"; "t"; "true"; "y"; "yes"].

Definition str_in (s : string) (l : list string) : bool :=
  existsb (String.eqb s) l.

(** [pydantic.validators.bool_validator]: a bool is returned; a str is
    lower-cased; the value must then be in [BOOL_TRUE] or [BOOL_FALSE],
    which also hold the ints 1 and 0 (and so the floats equal to them). *)
Definition bool_validator (v : pyval) : result pyval :=
  match v with
  | VBool b => Ok (VBool b)
  | VStr s =>
      let s' := str_lower s in
      if str_in s' BOOL_TRUE then Ok (VBool true)
      else if str_in s' BOOL_FALSE then Ok (VBool false)
      else fail BoolError
  | VInt z =>
      if z =? 1 then Ok (VBool true)
      else if z =? 0 then Ok (VBool false)
      else fail BoolError
  | VFloat f =>
      if float_is_one f then Ok (VBool true)
      else if float_is_zero f then Ok (VBool false)
      else fail BoolError
  | _ => fail BoolError
  end.

(** [pydantic.datetime_parse.parse_datetime]: a datetime is returned; a
    number or str is parsed; any other type is a [TypeError]. *)
Definition parse_datetime (v : pyval) : result pyval :=
  match v with
  | VDatetime d => Ok (VDatetime d)
  | VBool _ | VInt _ | VFloat _ | VStr _ =>
      of_option DateTimeError VDatetime (datetime_of_scalar py v)
  | _ => fail PyTypeError
  end.

(** The validation of a [Dict[str, Any]] field: [dict_validator], then
    every key through [str_validator] and every value kept as it is.  The
    keys of a dict or of an instance are str already. *)
Definition mapping_validator (v : pyval) : result pyval :=
  match v with
  | VDict d => Ok (VDict d)
  | VModel _ attrs _ => Ok (VDict attrs)
  | VList _ | VStr _ => of_option DictError VDict (mapping_of_iterable py v)
  | _ => fail DictError
  end.

(** [ModelField._validate_sequence_like] for a [List[...]] field, from
    index [i] on: every item is validated and every error kept, under the
    item's index. *)
Fixpoint validate_items (val : pyval -> result pyval) (i : nat) (l : list pyval)
  : list pyval * list error :=
  match l with
  | [] => ([], [])
  | x :: l' =>
      let '(rs, es) := validate_items val (S i) l' in
      match val x with
      | Ok r => (r :: rs, es)
      | Err ee => (rs, (map (under (LIndex i)) ee ++ es)%list)
      end
  end.

Definition sequence_validator (val : pyval -> result pyval) (v : pyval) : result pyval :=
  match v with
  | VList l =>
      match validate_items val 0 l with
      | (rs, []) => Ok (VList rs)
      | (_, es) => Err es
      end
  | _ => fail ListError
  end.

(** [ModelField.required] as pydantic infers it from the class body: a
    field with a default is not required, and neither is one annotated
    [Optional[...]] or [Any]. *)
Definition field_required (f : field_decl ftype) : bool :=
  match default f with
  | Some _ => false
  | None =>
      match annotation f with
      | TOptional _ | TAny => false
      | _ => true
      end
  end.

(** [ModelField.get_default()]: the declared default, else None. *)
Definition get_default (f : field_decl ftype) : pyval :=
  match default f with
  | Some d => d
  | None => VNone
  end.

(** [pydantic.main.validate_model]: the loop over [__fields__].  It
    returns [values], [fields_set] and the errors.  A key of [input_data]
    that names no field is never looked at ([Config.extra] is [ignore]). *)
Fixpoint validate_fields (val : ftype -> pyval -> result pyval)
    (fields : list (field_decl ftype)) (input_data : pydict)
  : pydict * list string * list error :=
  match fields with
  | [] => ([], [], [])
  | f :: rest =>
      let '(values, fields_set, errors) := validate_fields val rest input_data in
      match dict_get (fname f) input_data with
      | None =>
          if field_required f
          then (values, fields_set, ErrorWrapper [LField (fname f)] MissingError :: errors)
          else ((fname f, get_default f) :: values, fields_set, errors)
      | Some value =>
          match val (annotation f) value with
          | Ok v_ => ((fname f, v_) :: values, fname f :: fields_set, errors)
          | Err errors_ =>
              (values, fname f :: fields_set,
               (map (under (LField (fname f))) errors_ ++ errors)%list)
          end
      end
  end.

(** One turn of that loop, seen from the field: the value the field gets,
    or the errors it adds. *)
Definition field_check (val : ftype -> pyval -> result pyval)
    (f : field_decl ftype) (given : option pyval) : result pyval :=
  match given with
  | None =>
      if field_required f
      then Err [ErrorWrapper [LField (fname f)] MissingError]
      else Ok (get_default f)
  | Some value =>
      match val (annotation f) value with
      | Ok v_ => Ok v_
      | Err errors_ => Err (map (under (LField (fname f))) errors_)
      end
  end.

Definition field_is_set (input_data : pydict) (f : field_decl ftype) : bool :=
  match dict_get (fname f) input_data with Some _ => true | None => false end.

(** [BaseModel.__init__] on keyword arguments [data]: the instance, or a
    [ValidationError]. *)
Definition model_init (val : ftype -> pyval -> result pyval)
    (name : string) (fields : list (field_decl ftype)) (data : pydict) : result pyval :=
  match validate_fields val fields data with
  | (values, fields_set, []) => Ok (VModel name values fields_set)
  | (_, _, errors) => Err errors
  end.

(** [BaseModel.validate(value)], the validator of a field whose type is a
    model: an instance of the class is kept (copied), a dict is passed to
    [__init__], anything else goes through [dict(value)] first. *)
Definition model_validate (val : ftype -> pyval -> result pyval)
    (name : string) (fields : list (field_decl ftype)) (value : pyval) : result pyval :=
  match value with
  | VModel cls attrs _ =>
      if String.eqb cls name then Ok value else model_init val name fields attrs
  | VDict d => model_init val name fields d
  | VList _ | VStr _ =>
      match kwargs_of_iterable py value with
      | Some d => model_init val name fields d
      | None => fail DictError
      end
  | _ => fail DictError
  end.

(** [ModelField.validate]: None is accepted by [Optional[...]] and [Any]
    and refused elsewhere; then the validators of the type run. *)
Fixpoint validate (t : ftype) (v : pyval) {struct t} : result pyval :=
  match t with
  | TAny => Ok v
  | TOptional t' =>
      match v with
      | VNone => Ok VNone
      | _ => validate t' v
      end
  | _ =>
      match v with
      | VNone => fail NoneIsNotAllowedError
      | _ =>
          match t with
          | TStr => str_validator v
          | TInt => int_validator v
          | TFloat => float_validator v
          | TBool => bool_validator v
          | TDatetime => parse_datetime v
          | TList t' => sequence_validator (validate t') v
          | TDictStrAny => mapping_validator v
          | TModel name fields => model_validate (fun a x => validate a x) name fields v
          | TAny | TOptional _ => Ok v (* handled above *)
          end
      end
  end.

(** The fields of a class used as a type (none for the other types). *)
Definition class_fields (m : ftype) : list (field_decl ftype) :=
  match m with
  | TModel _ fields => fields
  | _ => []
  end.

Definition field_names (m : ftype) : list string := map (@fname ftype) (class_fields m).

(** The constructor call of class [m] on keyword arguments [data]. *)
Definition init (m : ftype) (data : pydict) : result pyval :=
  model_init validate (type_name m) (class_fields m) data.

(** [m.parse_obj(obj)]: [obj] is made a dict if it is not one, then passed
    to the constructor as keyword arguments; an [obj] that cannot be made
    one is a [TypeError] at [__root__]. *)
Definition parse_obj (m : ftype) (obj : pyval) : result pyval :=
  match obj with
  | VDict d => init m d
  | VModel _ attrs _ => init m attrs
  | VList _ | VStr _ =>
      match kwargs_of_iterable py obj with
      | Some d => init m d
      | None => Err [ErrorWrapper [LRoot] PyTypeError]
      end
  | _ => Err [ErrorWrapper [LRoot] PyTypeError]
  end.

(** [RepoSort(v)]: the member whose value is [v] (a [ValueError]
    otherwise); only a str equals a member's value. *)
Definition RepoSort_call (v : pyval) : option RepoSort :=
  match v with
  | VStr s => find (fun m => String.eqb (RepoSort_value m) s) RepoSort_members
  | _ => None
  end.

(** [pydantic.validators.enum_member_validator] for a field of type
    [RepoSort], after the None check of [ModelField.validate]. *)
Definition RepoSort_validate (v : pyval) : result RepoSort :=
  match v with
  | VNone => fail NoneIsNotAllowedError
  | _ =>
      match RepoSort_call v with
      | Some m => Ok m
      | None => fail EnumMemberError
      end
  end.

End Validation.

(** ** Encoding and attribute access *)

(** [BaseModel._get_value(v, to_dict=True)]: an instance becomes the dict
    of its fields, dicts and lists are rebuilt item by item, any other
    value is kept.  On an instance this is [BaseModel.dict()]. *)
Fixpoint to_dict (v : pyval) : pyval :=
  match v with
  | VModel _ attrs _ => VDict (map (fun kv => (fst kv, to_dict (snd kv))) attrs)
  | VDict d => VDict (map (fun kv => (fst kv, to_dict (snd kv))) d)
  | VList l => VList (map to_dict l)
  | _ => v
  end.

(** [getattr(self, a)] for a field [a] of an instance. *)
Definition getattr (self : pyval) (a : string) : option pyval :=
  match self with
  | VModel _ attrs _ => dict_get a attrs
  | _ => None
  end.

(** The property [GitHubRepo.owner]: [self.full_name.split("/")[0]]. *)
Definition GitHubRepo_owner (self : pyval) : option string :=
  match getattr self "full_name" with
  | Some (VStr full_name) => nth_error (str_split "/" full_name) 0
  | _ => None
  end.


(** An interpretation of the open conversions in which each of them
    raises ([str] of a float cannot, and prints "nan").  The examples below
    run under it; the one conversion they reach is [int] of the str "abc",
    which raises in Python too. *)
Definition no_conversion : PyBuiltins := {|
  int_of_str_other := fun _ => None;
  str_of_int := fun _ => None;
  str_of_float := fun _ => "nan";
  float_of_int := fun _ => None;
  float_of_str := fun _ => None;
  datetime_of_scalar := fun _ => None;
  kwargs_of_iterable := fun _ => None;
  mapping_of_iterable := fun _ => None
|}.

(** [datetime(2023, 1, 1, tzinfo=timezone.utc)] *)
Definition jan_2023 : datetime := Datetime 2023 1 1 0 0 0 0 (Some 0).

(** ** Vocabulary of the specification *)

(** [c in s] for a character [c]. *)
Fixpoint has_char (c : ascii) (s : string) : bool :=
  match s with
  | EmptyString => false
  | String c' s' => Ascii.eqb c' c || has_char c s'
  end.


(** A value with no model instance inside: [to_dict] leaves it alone. *)
Fixpoint plain (v : pyval) : bool :=
  match v with
  | VModel _ _ _ => false
  | VDict d => forallb (fun kv => plain (snd kv)) d
  | VList l => forallb plain l
  | _ => true
  end.

(** A raw value that is already of the declared type, so that validation
    has nothing to convert: a str for [str], an int for [int], and so on;
    for a class, a dict whose value for each declared field is such a
    value of the field's type, and which gives every required field (a
    field that is not required may be left out). *)
Fixpoint exactly_typed (t : ftype) (v : pyval) {struct t} : bool :=
  match t with
  | TAny => plain v
  | TStr => match v with VStr _ => true | _ => false end
  | TInt => match v with VInt _ => true | _ => false end
  | TFloat => match v with VFloat _ => true | _ => false end
  | TBool => match v with VBool _ => true | _ => false end
  | TDatetime => match v with VDatetime _ => true | _ => false end
  | TOptional t' => match v with VNone => true | _ => exactly_typed t' v end
  | TList t' => match v with VList l => forallb (exactly_typed t') l | _ => false end
  | TDictStrAny =>
      match v with VDict d => forallb (fun kv => plain (snd kv)) d | _ => false end
  | TModel _ fields =>
      match v with
      | VDict d =>
          forallb (fun f => match dict_get (fname f) d with
                            | Some x => exactly_typed (annotation f) x
                            | None => negb (field_required f)
                            end) fields
      | _ => false
      end
  end.

(** A raw value restricted to what its type declares: of a dict given for
    a class only the declared fields are kept, in declaration order, and a
    declared field that the dict leaves out takes its default. *)
Fixpoint restrict (t : ftype) (v : pyval) {struct t} : pyval :=
  match t with
  | TOptional t' => restrict t' v
  | TList t' => match v with VList l => VList (map (restrict t') l) | _ => v end
  | TModel _ fields =>
      match v with
      | VDict d =>
          VDict (map (fun f => (fname f,
                                match dict_get (fname f) d with
                                | Some x => restrict (annotation f) x
                                | None => to_dict (get_default f)
                                end)) fields)
      | _ => v
      end
  | _ => v
  end.


(** [isinstance(v, t)] for a validated value: an int for [int], a list of
    such values for [List[...]], an instance of the class for a class. *)
Fixpoint well_typed (t : ftype) (v : pyval) {struct t} : bool :=
  match t with
  | TAny => true
  | TStr => match v with VStr _ => true | _ => false end
  | TInt => match v with VInt _ => true | _ => false end
  | TFloat => match v with VFloat _ => true | _ => false end
  | TBool => match v with VBool _ => true | _ => false end
  | TDatetime => match v with VDatetime _ => true | _ => false end
  | TOptional t' => match v with VNone => true | _ => well_typed t' v end
  | TList t' => match v with VList l => forallb (well_typed t') l | _ => false end
  | TDictStrAny => match v with VDict _ => true | _ => false end
  | TModel n _ => match v with VModel cls _ _ => String.eqb cls n | _ => false end
  end.


(** A value that is not a container: None, a bool, a number, a str or a
    datetime. *)
Definition scalar (v : pyval) : bool :=
  match v with
  | VList _ | VDict _ | VModel _ _ _ => false
  | _ => true
  end.

Fixpoint distinct (names : list string) : bool :=
  match names with
  | [] => true
  | k :: names' => negb (existsb (String.eqb k) names') && distinct names'
  end.

(** A class declared as those of this module are: its field names are
    distinct, the default of a field that is not required is a scalar of
    the field's declared type, and the classes it uses are declared so. *)
Fixpoint well_declared (t : ftype) {struct t} : bool :=
  match t with
  | TOptional t' => well_declared t'
  | TList t' => well_declared t'
  | TModel _ fields =>
      distinct (map (@fname ftype) fields) &&
      forallb (fun f =>
                 well_declared (annotation f) &&
                 (field_required f ||
                  (scalar (get_default f) && exactly_typed (annotation f) (get_default f))))
              fields
  | _ => true
  end.

(** * Properties *)

(** ** Induction over nested values and annotations *)

Section PyvalInd.
Variable P : pyval -> Prop.
Hypothesis HNone : P VNone.
Hypothesis HBool : forall b, P (VBool b).
Hypothesis HInt : forall z, P (VInt z).
Hypothesis HFloat : forall f, P (VFloat f).
Hypothesis HStr : forall s, P (VStr s).
Hypothesis HDatetime : forall d, P (VDatetime d).
Hypothesis HList : forall l, Forall P l -> P (VList l).
Hypothesis HDict : forall d, Forall (fun kv => P (snd kv)) d -> P (VDict d).
Hypothesis HModel : forall c attrs fs,
    Forall (fun kv => P (snd kv)) attrs -> P (VModel c attrs fs).

Fixpoint pyval_nested_ind (v : pyval) : P v :=
  match v with
  | VNone => HNone
  | VBool b => HBool b
  | VInt z => HInt z
  | VFloat f => HFloat f
  | VStr s => HStr s
  | VDatetime d => HDatetime d
  | VList l =>
      HList ((fix go (l : list pyval) : Forall P l :=
                match l with
                | [] => Forall_nil _
                | x :: l' => Forall_cons x (pyval_nested_ind x) (go l')
                end) l)
  | VDict d =>
      HDict ((fix go (d : pydict) : Forall (fun kv => P (snd kv)) d :=
                match d with
                | [] => Forall_nil _
                | kv :: d' => Forall_cons kv (pyval_nested_ind (snd kv)) (go d')
                end) d)
  | VModel c attrs fs =>
      HModel c fs ((fix go (d : pydict) : Forall (fun kv => P (snd kv)) d :=
                match d with
                | [] => Forall_nil _
                | kv :: d' => Forall_cons kv (pyval_nested_ind (snd kv)) (go d')
                end) attrs)
  end.
End PyvalInd.

Section FtypeInd.
Variable P : ftype -> Prop.
Hypothesis HAny : P TAny.
Hypothesis HStr : P TStr.
Hypothesis HInt : P TInt.
Hypothesis HFloat : P TFloat.
Hypothesis HBool : P TBool.
Hypothesis HDatetime : P TDatetime.
Hypothesis HOptional : forall t, P t -> P (TOptional t).
Hypothesis HList : forall t, P t -> P (TList t).
Hypothesis HDict : P TDictStrAny.
Hypothesis HModel : forall n fields,
    Forall (fun f => P (annotation f)) fields -> P (TModel n fields).

Fixpoint ftype_nested_ind (t : ftype) : P t :=
  match t with
  | TAny => HAny
  | TStr => HStr
  | TInt => HInt
  | TFloat => HFloat
  | TBool => HBool
  | TDatetime => HDatetime
  | TOptional t' => HOptional (ftype_nested_ind t')
  | TList t' => HList (ftype_nested_ind t')
  | TDictStrAny => HDict
  | TModel n fields =>
      HModel n ((fix go (fs : list (field_decl ftype))
                   : Forall (fun f => P (annotation f)) fs :=
                   match fs with
                   | [] => Forall_nil _
                   | f :: fs' => Forall_cons f (ftype_nested_ind (annotation f)) (go fs')
                   end) fields)
  end.
End FtypeInd.

Unset Implicit Arguments.

(** ** The loop of [validate_model], field by field *)

Section FieldLoop.
Variable val : ftype -> pyval -> result pyval.

(** The loop reads [input_data] only at the names of the fields. *)
Lemma validate_fields_ext fields d1 d2 :
  (forall f, In f fields -> dict_get (fname f) d1 = dict_get (fname f) d2) ->
  validate_fields val fields d1 = validate_fields val fields d2.
Proof.
  induction fields as [|f rest IH]; intros H; simpl; [reflexivity|].
  rewrite IH by (intros g Hg; apply H; right; exact Hg).
  rewrite (H f) by (left; reflexivity). reflexivity.
Qed.


(** When the check of every field passes, the loop returns the values
    in field order, the names of the fields that were given, and no
    error. *)
Lemma validate_fields_pass fields data vs :
  Forall2 (fun f v => field_check val f (dict_get (fname f) data) = Ok v) fields vs ->
  validate_fields val fields data =
    (combine (map (@fname ftype) fields) vs,
     map (@fname ftype) (filter (field_is_set data) fields), []).
Proof.
  induction 1 as [|f v fields vs Hf _ IH]; simpl; [reflexivity|].
  rewrite IH. unfold field_check, field_is_set in *.
  destruct (dict_get (fname f) data) as [value|].
  - destruct (val (annotation f) value); [|discriminate].
    injection Hf as ->. reflexivity.
  - destruct (field_required f); [discriminate|].
    injection Hf as ->. reflexivity.
Qed.

(** A validator never fails with an empty list of errors. *)
Hypothesis val_errors : forall t v, val t v <> Err [].

Lemma under_nonempty l errs (errors : list error) :
  errs <> [] -> (map (under l) errs ++ errors)%list <> [].
Proof. destruct errs; [congruence | discriminate]. Qed.

(** Conversely, a loop that returns no error has passed the check of
    every field. *)
Lemma validate_fields_passed fields data values fs :
  validate_fields val fields data = (values, fs, []) ->
  exists vs,
    Forall2 (fun f v => field_check val f (dict_get (fname f) data) = Ok v) fields vs /\
    values = combine (map (@fname ftype) fields) vs /\
    fs = map (@fname ftype) (filter (field_is_set data) fields).
Proof.
  revert values fs.
  induction fields as [|g rest IH]; intros values fs H; simpl in *.
  - injection H as <- <-. exists []. repeat split. constructor.
  - destruct (validate_fields val rest data) as [[values' fs'] errors'] eqn:E.
    unfold field_is_set at 1.
    destruct (dict_get (fname g) data) as [value|] eqn:Eg.
    + destruct (val (annotation g) value) as [v_|errs] eqn:Ev.
      * injection H as <- <- ->.
        destruct (IH _ _ eq_refl) as (vs & HF & -> & ->).
        exists (v_ :: vs). repeat split. constructor; [|exact HF].
        unfold field_check. rewrite Eg, Ev. reflexivity.
      * injection H as _ _ H. exfalso. revert H. apply under_nonempty.
        intros ->. exact (val_errors _ _ Ev).
    + destruct (field_required g) eqn:Er.
      * discriminate H.
      * injection H as <- <- ->.
        destruct (IH _ _ eq_refl) as (vs & HF & -> & ->).
        exists (get_default g :: vs). repeat split. constructor; [|exact HF].
        unfold field_check. rewrite Eg, Er. reflexivity.
Qed.
End FieldLoop.

Section Facts.
Variable py : PyBuiltins.

Lemma of_option_errors A k (f : A -> pyval) o : of_option k f o <> Err [].
Proof. destruct o; discriminate. Qed.

Lemma model_init_errors val n fields data : model_init val n fields data <> Err [].
Proof.
  unfold model_init.
  destruct (validate_fields val fields data) as [[values fs] [|e errors]]; discriminate.
Qed.

Lemma validate_errors t v : validate py t v <> Err [].
Proof.
  revert v. induction t as [| | | | | |t IHt|t IHt| |n fields IH] using ftype_nested_ind;
    intros v; simpl;
    try solve [destruct v; simpl; unfold fail;
               repeat match goal with
                      | |- context [if ?c then _ else _] => destruct c
                      end;
               try discriminate; try apply of_option_errors].
  - (* Optional *) destruct v; simpl; try discriminate; apply IHt.
  - (* List *) destruct v; simpl; try discriminate.
    destruct (validate_items (validate py t) 0 l) as [rs [|e es]]; discriminate.
  - (* Model *) destruct v; simpl; try discriminate; try apply model_init_errors.
    + destruct (kwargs_of_iterable py (VStr s)); [apply model_init_errors|discriminate].
    + destruct (kwargs_of_iterable py (VList l)); [apply model_init_errors|discriminate].
    + destruct (String.eqb cls n); [discriminate|apply model_init_errors].
Qed.
End Facts.

(** ** Missing required fields *)



(** ** The closed enumeration [RepoSort] *)

(** C3. A str outside the four values of [RepoSort] does not validate as
    a [RepoSort] (the validator raises [EnumMemberError]); each of the four
    values validates to its member. *)
Theorem RepoSort_is_a_closed_set :
  (forall s,
      s <> "popularity" -> s <> "gfis" ->
      s <> "median_issue_resolve_time" -> s <> "newcomer_friendly" ->
      RepoSort_validate (VStr s) = fail EnumMemberError) /\
  RepoSort_validate (VStr "popularity") = Ok STARS /\
  RepoSort_validate (VStr "gfis") = Ok GFIS /\
  RepoSort_validate (VStr "median_issue_resolve_time") = Ok ISSUE_CLOSE_TIME /\
  RepoSort_validate (VStr "newcomer_friendly") = Ok NEWCOMER_RESOLVE_RATE.
Proof.
  split; [|repeat split; reflexivity].
  intros s H1 H2 H3 H4.
  unfold RepoSort_validate, RepoSort_call, RepoSort_members.
  cbn -[String.eqb].
  apply not_eq_sym, String.eqb_neq in H1, H2, H3, H4.
  rewrite H1, H2, H3, H4. reflexivity.
Qed.

(** The member name "STARS" is not a value. *)
Lemma RepoSort_is_a_closed_set_witness :
  RepoSort_validate (VStr "STARS") = fail EnumMemberError.
Proof.
  apply (proj1 RepoSort_is_a_closed_set "STARS"); discriminate.
Defined.

(** ** The derived owner of a [GitHubRepo] *)

Lemma str_split_not_nil sep s : str_split sep s <> [].
Proof.
  destruct s as [|c s]; simpl; [discriminate|].
  destruct (Ascii.eqb c sep); [discriminate|].
  destruct (str_split sep s); discriminate.
Qed.

(** Splitting a string without the separator gives the string itself. *)
Lemma str_split_no_sep sep s : has_char sep s = false -> str_split sep s = [s].
Proof.
  induction s as [|c s IH]; simpl; intros H; [reflexivity|].
  apply orb_false_iff in H as [Hc Hs].
  rewrite Hc, (IH Hs). reflexivity.
Qed.

(** The first piece is what stands before the first separator. *)
Lemma str_split_first sep a b :
  has_char sep a = false ->
  nth_error (str_split sep (a ++ String sep b)) 0 = Some a.
Proof.
  induction a as [|c a IH]; simpl; intros H.
  - rewrite Ascii.eqb_refl. reflexivity.
  - apply orb_false_iff in H as [Hc Hs]. rewrite Hc.
    specialize (IH Hs).
    destruct (str_split sep (a ++ String sep b)) as [|p ps]; simpl in *.
    + discriminate IH.
    + injection IH as ->. reflexivity.
Qed.

Section Validated.
Variable py : PyBuiltins.

(** Construction succeeds exactly when the check of every field
    passes, and then holds the checked values. *)
Lemma init_pass m data vs :
  Forall2 (fun f v => field_check (validate py) f (dict_get (fname f) data) = Ok v)
          (class_fields m) vs ->
  init py m data =
    Ok (VModel (type_name m) (combine (field_names m) vs)
               (map (@fname ftype) (filter (field_is_set data) (class_fields m)))).
Proof.
  intros H. unfold init, model_init.
  rewrite (validate_fields_pass _ _ _ _ H). reflexivity.
Qed.

Lemma init_passed m data g :
  init py m data = Ok g ->
  exists vs,
    Forall2 (fun f v => field_check (validate py) f (dict_get (fname f) data) = Ok v)
            (class_fields m) vs /\
    g = VModel (type_name m) (combine (field_names m) vs)
               (map (@fname ftype) (filter (field_is_set data) (class_fields m))).
Proof.
  unfold init, model_init.
  destruct (validate_fields (validate py) (class_fields m) data)
    as [[values fs] errors] eqn:E.
  destruct errors; [|discriminate].
  intros H; injection H as <-.
  destruct (validate_fields_passed (validate py) (validate_errors py) _ _ _ _ E)
    as (vs & HF & -> & ->).
  exists vs. split; [exact HF | reflexivity].
Qed.

(** On a dict, [parse_obj] is the constructor call. *)
Lemma parse_obj_dict m data : parse_obj py m (VDict data) = init py m data.
Proof. reflexivity. Qed.

(** A field whose type is a class keeps an instance of that class. *)
Lemma validate_keeps_instance n fields attrs fs :
  validate py (TModel n fields) (VModel n attrs fs) = Ok (VModel n attrs fs).
Proof. simpl. rewrite String.eqb_refl. reflexivity. Qed.

(** What [str_validator] returns is a str. *)
Lemma validate_str_is_str v w : validate py TStr v = Ok w -> exists s, w = VStr s.
Proof.
  destruct v; simpl; unfold fail, of_option; intros H;
    try discriminate; try (injection H as <-; eauto).
  - destruct (str_of_int py z); [injection H as <-; eauto | discriminate].
Qed.

Lemma check_str_is_str (f : field_decl ftype) given w :
  annotation f = TStr ->
  field_check (validate py) f given = Ok w -> field_required f = true ->
  exists s, w = VStr s.
Proof.
  unfold field_check. intros Ha H Hr. rewrite Ha in H.
  destruct given as [value|].
  - destruct (validate py TStr value) eqn:E; [|discriminate].
    injection H as <-. eapply validate_str_is_str; eassumption.
  - rewrite Hr in H. discriminate.
Qed.

(** The shape of a validated [GitHubRepo]: two str attributes. *)
Lemma GitHubRepo_instance data g :
  init py GitHubRepo data = Ok g ->
  exists full_name name fs,
    g = VModel "GitHubRepo" [("full_name", VStr full_name); ("name", VStr name)] fs.
Proof.
  intros H. destruct (init_passed _ _ _ H) as (vs & HF & ->).
  simpl in HF.
  inversion HF as [|f1 w1 fs1 vs1 H1 HF1]; subst.
  inversion HF1 as [|f2 w2 fs2 vs2 H2 HF2]; subst.
  inversion HF2; subst.
  destruct (check_str_is_str ("full_name" ::: TStr) _ _ eq_refl H1 eq_refl) as [fn ->].
  destruct (check_str_is_str ("name" ::: TStr) _ _ eq_refl H2 eq_refl) as [n ->].
  simpl. eauto.
Qed.
End Validated.

(** C4. For every validated [GitHubRepo], [owner] is the part of
    [full_name] before its first "/"; when [full_name] has no "/", [owner]
    is the whole of [full_name], and the property does not fail. *)
Theorem GitHubRepo_owner_is_first_segment :
  forall py data g,
    init py GitHubRepo data = Ok g ->
    exists full_name,
      getattr g "full_name" = Some (VStr full_name) /\
      (forall a b, has_char "/" a = false -> full_name = a ++ "/" ++ b ->
                   GitHubRepo_owner g = Some a) /\
      (has_char "/" full_name = false -> GitHubRepo_owner g = Some full_name).
Proof.
  intros py data g H.
  destruct (GitHubRepo_instance _ _ _ H) as (fn & n & fs & ->).
  exists fn. split; [reflexivity|]. unfold GitHubRepo_owner. simpl. split.
  - intros a b Ha ->. apply str_split_first. exact Ha.
  - intros Hfn. rewrite (str_split_no_sep _ _ Hfn). reflexivity.
Qed.

(** The owner of "octocat/Hello-World" is "octocat". *)
Lemma GitHubRepo_owner_is_first_segment_witness :
  exists g,
    init no_conversion GitHubRepo
      [("full_name", VStr "octocat/Hello-World"); ("name", VStr "Hello-World")] = Ok g /\
    GitHubRepo_owner g = Some "octocat".
Proof.
  eexists. split; [reflexivity|].
  destruct (GitHubRepo_owner_is_first_segment no_conversion
              [("full_name", VStr "octocat/Hello-World"); ("name", VStr "Hello-World")]
              _ eq_refl) as (fn & Hfn & Hseg & _).
  injection Hfn as <-.
  exact (Hseg "octocat" "Hello-World" eq_refl eq_refl).
Defined.

(** ** Construction of the concrete classes *)

(** Unfolds a constructor call down to the lookups in the input and the
    validator calls of the fields. *)
Ltac run_init M :=
  unfold init, model_init, M;
  cbn [class_fields type_name validate_fields fname annotation default
       field_required get_default].

(** Runs the validators on values whose type is known. *)
Ltac run_validators :=
  cbn [validate str_validator int_validator mapping_validator map app under loc exc].

Section ConstructionOk.
Variable py : PyBuiltins.

Lemma validate_int_int c : validate py TInt (VInt c) = Ok (VInt c).
Proof. reflexivity. Qed.


Lemma MonthlyCount_init data t d c c' :
  dict_get "month" data = Some t -> validate py TDatetime t = Ok d ->
  dict_get "count" data = Some c -> validate py TInt c = Ok c' ->
  init py MonthlyCount data =
    Ok (VModel "MonthlyCount" [("month", d); ("count", c')] ["month"; "count"]).
Proof.
  intros Hm Hd Hc Hc'. run_init MonthlyCount.
  rewrite Hm, Hc, Hd, Hc'. reflexivity.
Qed.

Lemma UserSearchedRepo_init data n n' o o' t d i i' :
  dict_get "name" data = Some n -> validate py TStr n = Ok n' ->
  dict_get "owner" data = Some o -> validate py TStr o = Ok o' ->
  dict_get "created_at" data = Some t -> validate py TDatetime t = Ok d ->
  dict_get "increment" data = Some i -> validate py TInt i = Ok i' ->
  init py UserSearchedRepo data =
    Ok (VModel "UserSearchedRepo"
          [("name", n'); ("owner", o'); ("created_at", d); ("increment", i')]
          ["name"; "owner"; "created_at"; "increment"]).
Proof.
  intros Hn Hn' Ho Ho' Ht Hd Hi Hi'. run_init UserSearchedRepo.
  rewrite Hn, Ho, Ht, Hi, Hn', Ho', Hd, Hi'. reflexivity.
Qed.

Lemma UpdateConfig_init data k k' t d i i' :
  dict_get "task_id" data = Some k -> validate py TStr k = Ok k' ->
  dict_get "interval" data = Some i -> validate py TInt i = Ok i' ->
  dict_get "begin_time" data = Some t -> validate py TDatetime t = Ok d ->
  init py UpdateConfig data =
    Ok (VModel "UpdateConfig"
          [("task_id", k'); ("interval", i'); ("begin_time", d)]
          ["task_id"; "interval"; "begin_time"]).
Proof.
  intros Hk Hk' Hi Hi' Ht Hd. run_init UpdateConfig.
  rewrite Hk, Hi, Ht, Hk', Hd, Hi'. reflexivity.
Qed.


(** Whether construction succeeds is decided field by field. *)
Lemma init_ok_fieldwise m data :
  is_ok (init py m data) =
  forallb (fun f => is_ok (field_check (validate py) f (dict_get (fname f) data)))
          (class_fields m).
Proof.
  destruct (forallb _ (class_fields m)) eqn:E.
  - assert (H : exists vs,
        Forall2 (fun f v => field_check (validate py) f (dict_get (fname f) data) = Ok v)
                (class_fields m) vs).
    { revert E. generalize (class_fields m) as fields.
      induction fields as [|f fields IH]; simpl; intros E.
      - exists []. constructor.
      - apply andb_true_iff in E as [Ef E].
        destruct (IH E) as [vs Hvs].
        destruct (field_check (validate py) f (dict_get (fname f) data)) as [v|] eqn:Ev;
          [|discriminate].
        exists (v :: vs). constructor; assumption. }
    destruct H as [vs H]. rewrite (init_pass py m data vs H). reflexivity.
  - destruct (init py m data) as [g|errs] eqn:Ei; [|reflexivity].
    destruct (init_passed py m data g Ei) as (vs & H & _).
    exfalso. revert E. clear -H.
    induction H as [|f v fields vs Hf _ IH]; simpl; [discriminate|].
    rewrite Hf. simpl. exact IH.
Qed.
End ConstructionOk.

(** C7. No integer field is range-checked.  The int validator returns
    every int as it is, negative or zero included; a [MonthlyCount] is
    built for every integer count, a [UserSearchedRepo] for every integer
    increment and an [UpdateConfig] for every integer interval, whenever
    the other fields pass; and whether construction succeeds is decided
    field by field: it succeeds exactly when the check of each field on
    its own value passes. *)
Theorem integer_fields_have_no_range_check :
  forall py,
    (forall c, validate py TInt (VInt c) = Ok (VInt c)) /\
    (forall data t d c,
        dict_get "month" data = Some t -> validate py TDatetime t = Ok d ->
        dict_get "count" data = Some (VInt c) ->
        init py MonthlyCount data =
          Ok (VModel "MonthlyCount" [("month", d); ("count", VInt c)]
                ["month"; "count"])) /\
    (forall data n n' o o' t d i,
        dict_get "name" data = Some n -> validate py TStr n = Ok n' ->
        dict_get "owner" data = Some o -> validate py TStr o = Ok o' ->
        dict_get "created_at" data = Some t -> validate py TDatetime t = Ok d ->
        dict_get "increment" data = Some (VInt i) ->
        init py UserSearchedRepo data =
          Ok (VModel "UserSearchedRepo"
                [("name", n'); ("owner", o'); ("created_at", d); ("increment", VInt i)]
                ["name"; "owner"; "created_at"; "increment"])) /\
    (forall data k k' t d i,
        dict_get "task_id" data = Some k -> validate py TStr k = Ok k' ->
        dict_get "interval" data = Some (VInt i) ->
        dict_get "begin_time" data = Some t -> validate py TDatetime t = Ok d ->
        init py UpdateConfig data =
          Ok (VModel "UpdateConfig"
                [("task_id", k'); ("interval", VInt i); ("begin_time", d)]
                ["task_id"; "interval"; "begin_time"])) /\
    (forall m data,
        is_ok (init py m data) =
        forallb (fun f => is_ok (field_check (validate py) f (dict_get (fname f) data)))
                (class_fields m)).
Proof.
  intros py. split; [|split; [|split; [|split]]].
  - apply validate_int_int.
  - intros data t d c Hm Hd Hc.
    exact (MonthlyCount_init py data t d _ _ Hm Hd Hc (validate_int_int py c)).
  - intros data n n' o o' t d i Hn Hn' Ho Ho' Ht Hd Hi.
    exact (UserSearchedRepo_init py data _ _ _ _ _ _ _ _
             Hn Hn' Ho Ho' Ht Hd Hi (validate_int_int py i)).
  - intros data k k' t d i Hk Hk' Hi Ht Hd.
    exact (UpdateConfig_init py data _ _ _ _ _ _ Hk Hk' Hi (validate_int_int py i) Ht Hd).
  - apply init_ok_fieldwise.
Qed.

(** A negative count, a zero increment and a negative interval. *)
Lemma integer_fields_have_no_range_check_witness :
  init no_conversion MonthlyCount
    [("month", VDatetime jan_2023); ("count", VInt (-3))] =
    Ok (VModel "MonthlyCount" [("month", VDatetime jan_2023); ("count", VInt (-3))]
          ["month"; "count"]) /\
  init no_conversion UserSearchedRepo
    [("name", VStr "Hello-World"); ("owner", VStr "octocat");
     ("created_at", VDatetime jan_2023); ("increment", VInt 0)] =
    Ok (VModel "UserSearchedRepo"
          [("name", VStr "Hello-World"); ("owner", VStr "octocat");
           ("created_at", VDatetime jan_2023); ("increment", VInt 0)]
          ["name"; "owner"; "created_at"; "increment"]) /\
  init no_conversion UpdateConfig
    [("task_id", VStr "sync"); ("interval", VInt (-60));
     ("begin_time", VDatetime jan_2023)] =
    Ok (VModel "UpdateConfig"
          [("task_id", VStr "sync"); ("interval", VInt (-60));
           ("begin_time", VDatetime jan_2023)]
          ["task_id"; "interval"; "begin_time"]).
Proof.
  destruct (integer_fields_have_no_range_check no_conversion)
    as (_ & HM & HU & HC & _).
  split; [|split].
  - apply (HM _ (VDatetime jan_2023) (VDatetime jan_2023) (-3)); reflexivity.
  - apply (HU _ (VStr "Hello-World") (VStr "Hello-World") (VStr "octocat") (VStr "octocat")
              (VDatetime jan_2023) (VDatetime jan_2023) 0); reflexivity.
  - apply (HC _ (VStr "sync") (VStr "sync") (VDatetime jan_2023) (VDatetime jan_2023) (-60));
      reflexivity.
Defined.

(** ** A str where an int is declared *)




(** ** The envelope [GFIResponse] *)

(** C6. An envelope built around a payload that its type accepts,
    without a code, has code 200, and encodes as the dict of "code": 200
    and "result": the encoded payload. *)
Theorem GFIResponse_code_defaults_to_200 :
  forall py T data v v',
    dict_get "code" data = None ->
    dict_get "result" data = Some v -> validate py T v = Ok v' ->
    exists g,
      init py (GFIResponse T) data = Ok g /\
      getattr g "code" = Some (VInt 200) /\
      getattr g "result" = Some v' /\
      to_dict g = VDict [("code", VInt 200); ("result", to_dict v')].
Proof.
  intros py T data v v' Hc Hr Hv.
  exists (VModel (type_name (GFIResponse T)) [("code", VInt 200); ("result", v')] ["result"]).
  split; [|repeat split].
  run_init GFIResponse. rewrite Hc, Hr, Hv. reflexivity.
Qed.

(** The envelope of the specification's [RepoBrief]. *)
Lemma GFIResponse_code_defaults_to_200_witness :
  exists g,
    init no_conversion (GFIResponse RepoBrief)
      [("result",
        VDict [("name", VStr "Hello-World"); ("owner", VStr "octocat");
               ("description", VNone); ("language", VStr "Python");
               ("topics", VList [VStr "tutorial"])])] = Ok g /\
    getattr g "code" = Some (VInt 200) /\
    to_dict g =
      VDict [("code", VInt 200);
             ("result",
              VDict [("name", VStr "Hello-World"); ("owner", VStr "octocat");
                     ("description", VNone); ("language", VStr "Python");
                     ("topics", VList [VStr "tutorial"])])].
Proof.
  destruct (GFIResponse_code_defaults_to_200 no_conversion RepoBrief
              [("result",
                VDict [("name", VStr "Hello-World"); ("owner", VStr "octocat");
                       ("description", VNone); ("language", VStr "Python");
                       ("topics", VList [VStr "tutorial"])])]
              _ _ eq_refl eq_refl eq_refl) as (g & Hg & Hcode & _ & Hdict).
  exists g. split; [exact Hg|]. split; [exact Hcode | exact Hdict].
Defined.

(** ** [GitHubRepo]: owner is derived, not a field *)

(** C8. [GitHubRepo] declares the fields full_name and name only.  An
    input that gives these two validates, whether or not it has a key
    "owner"; and the encoding of every validated [GitHubRepo] is the dict
    of full_name and name, with no key "owner". *)
Theorem GitHubRepo_owner_is_not_a_field :
  forall py,
    field_names GitHubRepo = ["full_name"; "name"] /\
    (forall data fn fn' n n',
        dict_get "full_name" data = Some fn -> validate py TStr fn = Ok fn' ->
        dict_get "name" data = Some n -> validate py TStr n = Ok n' ->
        init py GitHubRepo data =
          Ok (VModel "GitHubRepo" [("full_name", fn'); ("name", n')]
                ["full_name"; "name"])) /\
    (forall data g,
        init py GitHubRepo data = Ok g ->
        exists enc,
          to_dict g = VDict enc /\
          dict_keys enc = ["full_name"; "name"] /\
          dict_get "owner" enc = None).
Proof.
  intros py. split; [reflexivity|split].
  - intros data fn fn' n n' Hf Hf' Hn Hn'. run_init GitHubRepo.
    rewrite Hf, Hn, Hf', Hn'. reflexivity.
  - intros data g H.
    destruct (GitHubRepo_instance py data g H) as (fn & n & fs & ->).
    eexists. repeat split.
Qed.

(** An input without "owner", and its encoding. *)
Lemma GitHubRepo_owner_is_not_a_field_witness :
  dict_get "owner" [("full_name", VStr "octocat/Hello-World"); ("name", VStr "Hello-World")]
    = None /\
  exists g,
    init no_conversion GitHubRepo
      [("full_name", VStr "octocat/Hello-World"); ("name", VStr "Hello-World")] = Ok g /\
    to_dict g =
      VDict [("full_name", VStr "octocat/Hello-World"); ("name", VStr "Hello-World")].
Proof.
  split; [reflexivity|].
  destruct (GitHubRepo_owner_is_not_a_field no_conversion) as (_ & Hinit & _).
  eexists. split.
  - apply (Hinit _ (VStr "octocat/Hello-World") (VStr "octocat/Hello-World")
                   (VStr "Hello-World") (VStr "Hello-World"));
      reflexivity.
  - reflexivity.
Defined.

(** ** The webhook payload *)

(** C10. An input that gives a dict for sender and a str for action, and
    none of issue, repository, repositories, repositories_added and
    repositories_removed, validates as a [GitHubAppWebhookResponse],
    whatever the action is; the five fields are None. *)
Theorem webhook_needs_only_sender_and_action :
  forall py data sender action,
    dict_get "sender" data = Some (VDict sender) ->
    dict_get "action" data = Some (VStr action) ->
    dict_get "issue" data = None ->
    dict_get "repository" data = None ->
    dict_get "repositories" data = None ->
    dict_get "repositories_added" data = None ->
    dict_get "repositories_removed" data = None ->
    init py GitHubAppWebhookResponse data =
      Ok (VModel "GitHubAppWebhookResponse"
            [("sender", VDict sender); ("action", VStr action);
             ("issue", VNone); ("repository", VNone); ("repositories", VNone);
             ("repositories_added", VNone); ("repositories_removed", VNone)]
            ["sender"; "action"]).
Proof.
  intros py data sender action Hs Ha H1 H2 H3 H4 H5.
  run_init GitHubAppWebhookResponse.
  rewrite Hs, Ha, H1, H2, H3, H4, H5. reflexivity.
Qed.

(** A payload with nothing but sender and action. *)
Lemma webhook_needs_only_sender_and_action_witness :
  init no_conversion GitHubAppWebhookResponse
    [("sender", VDict [("login", VStr "octocat")]); ("action", VStr "deleted")] =
    Ok (VModel "GitHubAppWebhookResponse"
          [("sender", VDict [("login", VStr "octocat")]); ("action", VStr "deleted");
           ("issue", VNone); ("repository", VNone); ("repositories", VNone);
           ("repositories_added", VNone); ("repositories_removed", VNone)]
          ["sender"; "action"]).
Proof.
  apply (webhook_needs_only_sender_and_action no_conversion); reflexivity.
Defined.

(** ** Optional fields: absent and null *)



(** Every class of the module has distinct field names, as a class body
    cannot but have. *)
Lemma classes_have_distinct_fields T :
  Forall (fun m => NoDup (field_names m))
    [GFIResponse T; RepoQuery; RepoBrief; MonthlyCount; RepoDetail;
     UserSearchedRepo; UpdateConfig; RepoConfig; Config; GFIBrief;
     TrainingResult; GitHubRepo; GitHubAppWebhookResponse; GitHubUserInfo].
Proof.
  repeat apply Forall_cons; try apply Forall_nil;
    repeat (apply NoDup_cons; [simpl; intuition discriminate|]); apply NoDup_nil.
Qed.




(** ** Encoding a validated input *)

(** [to_dict] changes nothing in a value without instances. *)
Lemma plain_to_dict v : plain v = true -> to_dict v = v.
Proof.
  induction v as [| | | | | |l IH|d IH|c attrs fs IH] using pyval_nested_ind;
    simpl; intros H; try reflexivity; try discriminate.
  - f_equal. induction IH as [|x l Hx _ IHl]; simpl in *; [reflexivity|].
    apply andb_true_iff in H as [H1 H2]. rewrite (Hx H1), (IHl H2). reflexivity.
  - f_equal. induction IH as [|[k x] d Hx _ IHd]; simpl in *; [reflexivity|].
    apply andb_true_iff in H as [H1 H2]. rewrite (Hx H1), (IHd H2). reflexivity.
Qed.

Lemma plain_dict_to_dict (d : pydict) :
  forallb (fun kv => plain (snd kv)) d = true ->
  map (fun kv => (fst kv, to_dict (snd kv))) d = d.
Proof.
  induction d as [|[k x] d IH]; simpl; intros H; [reflexivity|].
  apply andb_true_iff in H as [H1 H2].
  rewrite (plain_to_dict x H1), (IH H2). reflexivity.
Qed.

Lemma restrict_None t : restrict t VNone = VNone.
Proof.
  induction t as [| | | | | |t IHt|t IHt| |n fields IH] using ftype_nested_ind;
    simpl; auto.
Qed.


Section RoundTrip.
Variable py : PyBuiltins.

(** The items of a list validate one by one. *)
Lemma validate_items_pass val t l :
  Forall (fun x => exists x', val x = Ok x' /\ to_dict x' = restrict t x) l ->
  forall i, exists rs,
    validate_items val i l = (rs, []) /\ map to_dict rs = map (restrict t) l.
Proof.
  induction 1 as [|x l (x' & Hx & Hd) _ IH]; intros i; simpl.
  - exists []. split; reflexivity.
  - destruct (IH (S i)) as (rs & -> & Hrs). rewrite Hx.
    exists (x' :: rs). split; [reflexivity|]. simpl. rewrite Hd, Hrs. reflexivity.
Qed.

(** The fields of an exactly typed dict pass their checks one by one. *)
Lemma fields_pass_exact (fields : list (field_decl ftype)) d :
  Forall (fun f => forall v, exactly_typed (annotation f) v = true ->
                   exists v', validate py (annotation f) v = Ok v' /\
                              to_dict v' = restrict (annotation f) v) fields ->
  forallb (fun f => match dict_get (fname f) d with
                    | Some x => exactly_typed (annotation f) x
                    | None => negb (field_required f)
                    end) fields = true ->
  exists vs,
    Forall2 (fun f v => field_check (fun a x => validate py a x) f
                          (dict_get (fname f) d) = Ok v) fields vs /\
    map (fun kv => (fst kv, to_dict (snd kv))) (combine (map (@fname ftype) fields) vs) =
    map (fun f => (fname f,
                   match dict_get (fname f) d with
                   | Some x => restrict (annotation f) x
                   | None => to_dict (get_default f)
                   end)) fields.
Proof.
  induction 1 as [|f fields Hf _ IH]; simpl; intros H.
  - exists []. split; [constructor | reflexivity].
  - apply andb_true_iff in H as [H1 H2].
    destruct (IH H2) as (vs & HF & Hmap).
    unfold field_check at 1.
    destruct (dict_get (fname f) d) as [x|] eqn:Ex.
    + destruct (Hf x H1) as (x' & Hx & Hd).
      exists (x' :: vs). split.
      * constructor; [|exact HF]. unfold field_check. rewrite Ex, Hx. reflexivity.
      * simpl. rewrite Hd, Hmap. reflexivity.
    + apply negb_true_iff in H1.
      exists (get_default f :: vs). split.
      * constructor; [|exact HF]. unfold field_check. rewrite Ex, H1. reflexivity.
      * simpl. rewrite Hmap. reflexivity.
Qed.

(** An exactly typed value validates, and the validated value encodes
    to the value restricted to its type. *)
Lemma exactly_typed_round_trip t :
  forall v, exactly_typed t v = true ->
            exists v', validate py t v = Ok v' /\ to_dict v' = restrict t v.
Proof.
  induction t as [| | | | | |t IHt|t IHt| |n fields IH] using ftype_nested_ind;
    intros v H; simpl in H.
  - exists v. split; [reflexivity | exact (plain_to_dict v H)].
  - destruct v; try discriminate. eexists; split; reflexivity.
  - destruct v; try discriminate. eexists; split; reflexivity.
  - destruct v; try discriminate. eexists; split; reflexivity.
  - destruct v; try discriminate. eexists; split; reflexivity.
  - destruct v; try discriminate. eexists; split; reflexivity.
  - destruct v; try (exact (IHt _ H)).
    exists VNone. split; [reflexivity | symmetry; apply restrict_None].
  - destruct v; try discriminate.
    assert (HF : Forall (fun x => exists x', validate py t x = Ok x' /\
                                             to_dict x' = restrict t x) l).
    { apply Forall_forall. intros x Hx. apply IHt.
      rewrite forallb_forall in H. exact (H x Hx). }
    destruct (validate_items_pass (validate py t) t l HF 0%nat) as (rs & Hrs & Hmap).
    exists (VList rs). split.
    + simpl. rewrite Hrs. reflexivity.
    + simpl. rewrite Hmap. reflexivity.
  - destruct v; try discriminate.
    exists (VDict d). split; [reflexivity|].
    simpl. rewrite (plain_dict_to_dict d H). reflexivity.
  - destruct v; try discriminate.
    destruct (fields_pass_exact fields d IH H) as (vs & HF & Hmap).
    exists (VModel n (combine (map (@fname ftype) fields) vs)
              (map (@fname ftype) (filter (field_is_set d) fields))).
    split.
    + simpl. unfold model_init.
      rewrite (validate_fields_pass _ fields d vs HF). reflexivity.
    + simpl. rewrite Hmap. reflexivity.
Qed.
End RoundTrip.





(** * Further properties of the classes *)

(** ** What the constructor reads *)

(** X1. The constructor reads its input only at the declared fields: two
    inputs that agree there give the same instance or the same errors.
    Unknown keys and the order of the keys change nothing. *)
Theorem init_reads_declared_fields_only :
  forall py m d1 d2,
    (forall k, In k (field_names m) -> dict_get k d1 = dict_get k d2) ->
    init py m d1 = init py m d2.
Proof.
  intros py m d1 d2 H. unfold init, model_init.
  rewrite (validate_fields_ext (validate py) (class_fields m) d1 d2); [reflexivity|].
  intros f Hf. apply H. unfold field_names. apply in_map. exact Hf.
Qed.

(** A [RepoQuery] with its keys swapped and a stray key. *)
Lemma init_reads_declared_fields_only_witness :
  init no_conversion RepoQuery
    [("stars", VInt 3); ("name", VStr "Hello-World"); ("owner", VStr "octocat")] =
  init no_conversion RepoQuery
    [("owner", VStr "octocat"); ("name", VStr "Hello-World")].
Proof.
  apply init_reads_declared_fields_only.
  intros k [<-|[<-|[]]]; reflexivity.
Defined.

(** The loop of [validate_model] on the empty input. *)
Lemma validate_fields_empty val fields :
  validate_fields val fields [] =
    (map (fun f => (fname f, get_default f)) (filter (fun f => negb (field_required f)) fields),
     [],
     map (fun f => ErrorWrapper [LField (fname f)] MissingError)
         (filter field_required fields)).
Proof.
  induction fields as [|f rest IH]; simpl; [reflexivity|].
  rewrite IH. destruct (field_required f); reflexivity.
Qed.

Lemma filter_none_all {A} (p : A -> bool) l :
  filter p l = [] -> filter (fun x => negb (p x)) l = l.
Proof.
  induction l as [|x l IH]; simpl; [reflexivity|].
  destruct (p x); [discriminate|]. intros H. simpl. f_equal. exact (IH H).
Qed.

(** X2. The constructor called without arguments fails with one
    [MissingError] for each required field, in declaration order, and
    with nothing else; a class without required fields is built from its
    defaults, with an empty [__fields_set__]. *)
Theorem init_without_arguments :
  forall py m,
    init py m [] =
      match filter field_required (class_fields m) with
      | [] => Ok (VModel (type_name m)
                    (map (fun f => (fname f, get_default f)) (class_fields m)) [])
      | required =>
          Err (map (fun f => ErrorWrapper [LField (fname f)] MissingError) required)
      end.
Proof.
  intros py m. unfold init, model_init. rewrite validate_fields_empty.
  destruct (filter field_required (class_fields m)) as [|f req] eqn:E.
  - simpl. rewrite (filter_none_all _ _ E). reflexivity.
  - reflexivity.
Qed.



(** X4. [__fields_set__] of a built instance holds exactly the declared
    fields that the input gave, in declaration order; a field filled from
    its default is not in it. *)
Theorem fields_set_is_the_given_fields :
  forall py m data cls values fields_set,
    init py m data = Ok (VModel cls values fields_set) ->
    fields_set =
      filter (fun k => match dict_get k data with Some _ => true | None => false end)
             (field_names m).
Proof.
  intros py m data cls values fs H.
  destruct (init_passed py m data _ H) as (vs & _ & E).
  injection E as _ _ ->. unfold field_names, field_is_set.
  generalize (class_fields m) as fields.
  induction fields as [|f fields IH]; simpl; [reflexivity|].
  destruct (dict_get (fname f) data); simpl; rewrite IH; reflexivity.
Qed.

(** A [GFIBrief] given without state and title. *)
Lemma fields_set_is_the_given_fields_witness :
  ["name"; "owner"; "number"; "threshold"; "probability"; "last_updated"] =
  filter (fun k =>
            match dict_get k
                    [("name", VStr "Hello-World"); ("owner", VStr "octocat");
                     ("number", VInt 7); ("threshold", VFloat (S754_zero false));
                     ("probability", VFloat (S754_zero false));
                     ("last_updated", VDatetime jan_2023)]
            with Some _ => true | None => false end)
         (field_names GFIBrief).
Proof.
  exact (fields_set_is_the_given_fields no_conversion GFIBrief
           [("name", VStr "Hello-World"); ("owner", VStr "octocat");
            ("number", VInt 7); ("threshold", VFloat (S754_zero false));
            ("probability", VFloat (S754_zero false));
            ("last_updated", VDatetime jan_2023)]
           "GFIBrief" _ _ eq_refl).
Defined.

(** ** Lists *)

Section Lists.
Variable py : PyBuiltins.


(** A list whose validation returns no error has validated item by item. *)
Lemma validate_items_passed t i l rs :
  validate_items (validate py t) i l = (rs, []) ->
  Forall2 (fun x r => validate py t x = Ok r) l rs.
Proof.
  revert i rs. induction l as [|x l IH]; intros i rs H; simpl in H.
  - injection H as <-. constructor.
  - destruct (validate_items (validate py t) (S i) l) as [rs' es'] eqn:E.
    destruct (validate py t x) as [r|ee] eqn:Ex.
    + injection H as <- ->. constructor; [exact Ex | exact (IH _ _ E)].
    + injection H as _ H. exfalso. revert H. apply under_nonempty.
      intros ->. exact (validate_errors py _ _ Ex).
Qed.

Lemma validate_items_pass_each t i l rs :
  Forall2 (fun x r => validate py t x = Ok r) l rs ->
  validate_items (validate py t) i l = (rs, []).
Proof.
  intros H. revert i. induction H as [|x r l rs Hx _ IH]; intros i; simpl; [reflexivity|].
  rewrite IH, Hx. reflexivity.
Qed.
End Lists.



(** X6. A validated list has one item for each item given, in the same
    order, each the validated form of the item at its place: nothing is
    dropped, added or moved. *)
Theorem validated_list_is_itemwise :
  forall py t l v',
    validate py (TList t) (VList l) = Ok v' ->
    exists rs,
      v' = VList rs /\
      List.length rs = List.length l /\
      Forall2 (fun x r => validate py t x = Ok r) l rs.
Proof.
  intros py t l v' H. simpl in H.
  destruct (validate_items (validate py t) 0 l) as [rs es] eqn:E.
  destruct es; [|discriminate]. injection H as <-.
  pose proof (validate_items_passed py t 0 l rs E) as HF.
  exists rs. split; [reflexivity|]. split; [|exact HF].
  symmetry. exact (Forall2_length HF).
Qed.

(** Two monthly counts, the second with a count given as a str. *)
Lemma validated_list_is_itemwise_witness :
  exists rs,
    validate no_conversion (TList MonthlyCount)
      (VList [VDict [("month", VDatetime jan_2023); ("count", VInt 5)];
              VDict [("month", VDatetime jan_2023); ("count", VStr "8")]]) = Ok (VList rs) /\
    List.length rs = 2%nat.
Proof.
  destruct (validated_list_is_itemwise no_conversion MonthlyCount
              [VDict [("month", VDatetime jan_2023); ("count", VInt 5)];
               VDict [("month", VDatetime jan_2023); ("count", VStr "8")]]
              _ eq_refl) as (rs & E & Hlen & _).
  exists rs. split; [rewrite <- E; reflexivity | exact Hlen].
Defined.

(** ** Validated values *)

Section Typing.
Variable py : PyBuiltins.

(** What a validator returns has the declared type. *)
Lemma validate_well_typed t :
  forall v v', validate py t v = Ok v' -> well_typed t v' = true.
Proof.
  induction t as [| | | | | |t IHt|t IHt| |n fields IH] using ftype_nested_ind;
    intros v v' H.
  - reflexivity.
  - destruct (validate_str_is_str py v v' H) as [s ->]. reflexivity.
  - destruct v; simpl in H; unfold fail, of_option in H; try discriminate;
      try (injection H as <-; reflexivity).
    + destruct (int_of_float f); [injection H as <-; reflexivity | discriminate].
    + destruct (int_of_str py s); [injection H as <-; reflexivity | discriminate].
  - destruct v; simpl in H; unfold fail, of_option in H; try discriminate;
      try (injection H as <-; reflexivity).
    + destruct (float_of_int py (Z.b2z b)); [injection H as <-; reflexivity | discriminate].
    + destruct (float_of_int py z); [injection H as <-; reflexivity | discriminate].
    + destruct (float_of_str py s); [injection H as <-; reflexivity | discriminate].
  - destruct v; simpl in H; unfold fail in H; try discriminate;
      repeat match type of H with
             | context [if ?c then _ else _] => destruct c
             end;
      try discriminate; injection H as <-; reflexivity.
  - destruct v; simpl in H; unfold fail, of_option in H; try discriminate;
      try (injection H as <-; reflexivity);
      match type of H with
      | context [datetime_of_scalar py ?x] =>
          destruct (datetime_of_scalar py x); [injection H as <-; reflexivity | discriminate]
      end.
  - destruct v; simpl in H; try (injection H as <-; reflexivity);
      specialize (IHt _ _ H); simpl; destruct v'; try reflexivity; exact IHt.
  - destruct v; simpl in H; unfold fail in H; try discriminate.
    destruct (validate_items (validate py t) 0 l) as [rs es] eqn:E.
    destruct es; [|discriminate]. injection H as <-.
    pose proof (validate_items_passed py t 0 l rs E) as HF.
    simpl. apply forallb_forall. intros r Hr.
    clear E. induction HF as [|x r' l rs Hx _ IHF]; [destruct Hr|].
    destruct Hr as [<-|Hr]; [exact (IHt _ _ Hx) | exact (IHF Hr)].
  - destruct v; simpl in H; unfold fail, of_option in H; try discriminate;
      try (injection H as <-; reflexivity);
      match type of H with
      | context [mapping_of_iterable py ?x] =>
          destruct (mapping_of_iterable py x); [injection H as <-; reflexivity | discriminate]
      end.
  - assert (Hinit : forall d, model_init (fun a x => validate py a x) n fields d = Ok v' ->
                              well_typed (TModel n fields) v' = true).
    { intros d Hd. unfold model_init in Hd.
      destruct (validate_fields _ fields d) as [[values fs] errs].
      destruct errs; [|discriminate]. injection Hd as <-.
      simpl. apply String.eqb_refl. }
    destruct v; simpl in H; unfold fail in H; try discriminate; try exact (Hinit _ H).
    + destruct (kwargs_of_iterable py (VStr s)); [exact (Hinit _ H) | discriminate].
    + destruct (kwargs_of_iterable py (VList l)); [exact (Hinit _ H) | discriminate].
    + destruct (String.eqb cls n) eqn:En; [|exact (Hinit _ H)].
      injection H as <-. simpl. exact En.
Qed.

(** A value of the declared type validates to itself. *)
Lemma well_typed_is_kept t :
  forall v, well_typed t v = true -> validate py t v = Ok v.
Proof.
  induction t as [| | | | | |t IHt|t IHt| |n fields IH] using ftype_nested_ind;
    intros v H; simpl in H;
    try solve [destruct v; try discriminate; reflexivity].
  - destruct v; try reflexivity; exact (IHt _ H).
  - destruct v; try discriminate. simpl.
    rewrite (validate_items_pass_each py t 0 l l); [reflexivity|].
    induction l as [|x l IHl]; [constructor|].
    simpl in H. apply andb_true_iff in H as [H1 H2].
    constructor; [exact (IHt _ H1) | exact (IHl H2)].
  - destruct v; try discriminate. simpl. rewrite H. reflexivity.
Qed.
End Typing.

(** X7. Validation is idempotent: a value that a field's validators
    returned is returned unchanged when it is validated again for the
    same field (an instance where a class is declared is kept, an int
    stays that int, a list stays item by item). *)
Theorem validation_is_idempotent :
  forall py t v v', validate py t v = Ok v' -> validate py t v' = Ok v'.
Proof.
  intros py t v v' H.
  apply well_typed_is_kept. exact (validate_well_typed py t v v' H).
Qed.

(** Counts given as a str, a bool and an int: validated, then validated
    again. *)
Lemma validation_is_idempotent_witness :
  validate no_conversion (TList TInt) (VList [VStr "5"; VBool true; VInt 8]) =
    Ok (VList [VInt 5; VInt 1; VInt 8]) /\
  validate no_conversion (TList TInt) (VList [VInt 5; VInt 1; VInt 8]) =
    Ok (VList [VInt 5; VInt 1; VInt 8]).
Proof.
  split; [reflexivity|].
  exact (validation_is_idempotent no_conversion (TList TInt)
           (VList [VStr "5"; VBool true; VInt 8]) (VList [VInt 5; VInt 1; VInt 8])
           eq_refl).
Defined.

(** X8. Validated attributes have their declared types, whatever the
    input was: after construction an attribute is an int where [int] is
    declared, a str where [str] is, a list of such values for
    [List[...]], an instance of the class where a class is declared, None
    only where [Optional[...]] is; or it is the default of a field the
    input left out. *)
Theorem validated_attributes_are_typed :
  forall py m data g,
    init py m data = Ok g ->
    exists vs fs,
      g = VModel (type_name m) (combine (field_names m) vs) fs /\
      Forall2 (fun f w =>
                 match dict_get (fname f) data with
                 | Some _ => well_typed (annotation f) w = true
                 | None => w = get_default f
                 end) (class_fields m) vs.
Proof.
  intros py m data g H.
  destruct (init_passed py m data g H) as (vs & HF & ->).
  exists vs. eexists. split; [reflexivity|].
  clear H. induction HF as [|f w fields vs Hf _ IH]; constructor; [|exact IH].
  unfold field_check in Hf.
  destruct (dict_get (fname f) data) as [value|].
  - destruct (validate py (annotation f) value) as [w'|] eqn:E; [|discriminate].
    injection Hf as <-. exact (validate_well_typed py _ _ _ E).
  - destruct (field_required f); [discriminate|]. injection Hf as <-. reflexivity.
Qed.

(** A [MonthlyCount] from a count given as a str: the attribute is an int. *)
Lemma validated_attributes_are_typed_witness :
  exists vs fs,
    VModel "MonthlyCount" [("month", VDatetime jan_2023); ("count", VInt 5)]
      ["month"; "count"] =
      VModel (type_name MonthlyCount) (combine (field_names MonthlyCount) vs) fs /\
    Forall2 (fun f w =>
               match dict_get (fname f)
                       [("month", VDatetime jan_2023); ("count", VStr "5")] with
               | Some _ => well_typed (annotation f) w = true
               | None => w = get_default f
               end) (class_fields MonthlyCount) vs.
Proof.
  exact (validated_attributes_are_typed no_conversion MonthlyCount
           [("month", VDatetime jan_2023); ("count", VStr "5")] _ eq_refl).
Defined.

(** ** Classes inside classes *)

Section Nested.
Variable py : PyBuiltins.


End Nested.





(** ** The envelope, further *)



(** ** Float fields and profile fields *)

(** X12. No float field is range-checked: a [RepoConfig] is built for
    every float gfi_threshold and a [GFIBrief] for every float threshold
    and probability (outside 0..1, infinite or not a number alike),
    whenever their other fields pass; the float is stored as given. *)
Theorem float_fields_have_no_range_check :
  forall py,
    (forall data nt nt' f nc nc' tag tag',
        dict_get "newcomer_threshold" data = Some nt -> validate py TInt nt = Ok nt' ->
        dict_get "gfi_threshold" data = Some (VFloat f) ->
        dict_get "need_comment" data = Some nc -> validate py TBool nc = Ok nc' ->
        dict_get "issue_tag" data = Some tag -> validate py TStr tag = Ok tag' ->
        init py RepoConfig data =
          Ok (VModel "RepoConfig"
                [("newcomer_threshold", nt'); ("gfi_threshold", VFloat f);
                 ("need_comment", nc'); ("issue_tag", tag')]
                ["newcomer_threshold"; "gfi_threshold"; "need_comment"; "issue_tag"])) /\
    (forall data n n' o o' k k' th p t d,
        dict_get "name" data = Some n -> validate py TStr n = Ok n' ->
        dict_get "owner" data = Some o -> validate py TStr o = Ok o' ->
        dict_get "number" data = Some k -> validate py TInt k = Ok k' ->
        dict_get "threshold" data = Some (VFloat th) ->
        dict_get "probability" data = Some (VFloat p) ->
        dict_get "last_updated" data = Some t -> validate py TDatetime t = Ok d ->
        dict_get "state" data = None -> dict_get "title" data = None ->
        init py GFIBrief data =
          Ok (VModel "GFIBrief"
                [("name", n'); ("owner", o'); ("number", k');
                 ("threshold", VFloat th); ("probability", VFloat p);
                 ("last_updated", d); ("state", VNone); ("title", VNone)]
                ["name"; "owner"; "number"; "threshold"; "probability"; "last_updated"])).
Proof.
  intros py. split.
  - intros data nt nt' f nc nc' tag tag' H1 H1' H2 H3 H3' H4 H4'.
    run_init RepoConfig. rewrite H1, H2, H3, H4, H1', H3', H4'. reflexivity.
  - intros data n n' o o' k k' th p t d H1 H1' H2 H2' H3 H3' H4 H5 H6 H6' H7 H8.
    run_init GFIBrief. rewrite H1, H2, H3, H4, H5, H6, H7, H8, H1', H2', H3', H6'.
    reflexivity.
Qed.

(** A threshold of minus infinity, and a probability that is not a number. *)
Lemma float_fields_have_no_range_check_witness :
  init no_conversion RepoConfig
    [("newcomer_threshold", VInt 5); ("gfi_threshold", VFloat (S754_infinity true));
     ("need_comment", VStr "Yes"); ("issue_tag", VStr "good first issue")] =
    Ok (VModel "RepoConfig"
          [("newcomer_threshold", VInt 5); ("gfi_threshold", VFloat (S754_infinity true));
           ("need_comment", VBool true); ("issue_tag", VStr "good first issue")]
          ["newcomer_threshold"; "gfi_threshold"; "need_comment"; "issue_tag"]) /\
  init no_conversion GFIBrief
    [("name", VStr "Hello-World"); ("owner", VStr "octocat"); ("number", VInt 7);
     ("threshold", VFloat (S754_zero false)); ("probability", VFloat S754_nan);
     ("last_updated", VDatetime jan_2023)] =
    Ok (VModel "GFIBrief"
          [("name", VStr "Hello-World"); ("owner", VStr "octocat"); ("number", VInt 7);
           ("threshold", VFloat (S754_zero false)); ("probability", VFloat S754_nan);
           ("last_updated", VDatetime jan_2023); ("state", VNone); ("title", VNone)]
          ["name"; "owner"; "number"; "threshold"; "probability"; "last_updated"]).
Proof.
  destruct (float_fields_have_no_range_check no_conversion) as [HR HG].
  split.
  - apply (HR _ (VInt 5) (VInt 5) (S754_infinity true) (VStr "Yes") (VBool true)
              (VStr "good first issue") (VStr "good first issue")); reflexivity.
  - apply (HG _ (VStr "Hello-World") (VStr "Hello-World") (VStr "octocat") (VStr "octocat")
              (VInt 7) (VInt 7) (S754_zero false) S754_nan
              (VDatetime jan_2023) (VDatetime jan_2023)); reflexivity.
Defined.

(** X13. A [GitHubUserInfo] needs id, login and name only: given these
    three and none of avatar_url, email, url and twitter_username, it is
    built, the four profile fields are None and [__fields_set__] holds the
    three given fields.  Without one of the three it is not built. *)
Theorem GitHubUserInfo_needs_id_login_name :
  forall py data,
    dict_get "avatar_url" data = None -> dict_get "email" data = None ->
    dict_get "url" data = None -> dict_get "twitter_username" data = None ->
    (forall i i' l l' n n',
        dict_get "id" data = Some i -> validate py TStr i = Ok i' ->
        dict_get "login" data = Some l -> validate py TStr l = Ok l' ->
        dict_get "name" data = Some n -> validate py TStr n = Ok n' ->
        init py GitHubUserInfo data =
          Ok (VModel "GitHubUserInfo"
                [("id", i'); ("login", l'); ("name", n'); ("avatar_url", VNone);
                 ("email", VNone); ("url", VNone); ("twitter_username", VNone)]
                ["id"; "login"; "name"])) /\
    (dict_get "id" data = None \/ dict_get "login" data = None \/
     dict_get "name" data = None ->
     is_ok (init py GitHubUserInfo data) = false).
Proof.
  intros py data H1 H2 H3 H4. split.
  - intros i i' l l' n n' Hi Hi' Hl Hl' Hn Hn'.
    run_init GitHubUserInfo. rewrite H1, H2, H3, H4, Hi, Hl, Hn, Hi', Hl', Hn'.
    reflexivity.
  - intros H. rewrite init_ok_fieldwise. cbn [class_fields GitHubUserInfo forallb fname].
    destruct H as [H|[H|H]]; rewrite H; cbn; rewrite ?andb_false_r; reflexivity.
Qed.

(** A user with the three fields, and one without login. *)
Lemma GitHubUserInfo_needs_id_login_name_witness :
  init no_conversion GitHubUserInfo
    [("id", VStr "583231"); ("login", VStr "octocat"); ("name", VStr "The Octocat")] =
    Ok (VModel "GitHubUserInfo"
          [("id", VStr "583231"); ("login", VStr "octocat"); ("name", VStr "The Octocat");
           ("avatar_url", VNone); ("email", VNone); ("url", VNone);
           ("twitter_username", VNone)]
          ["id"; "login"; "name"]) /\
  is_ok (init no_conversion GitHubUserInfo
           [("id", VStr "583231"); ("name", VStr "The Octocat")]) = false.
Proof.
  split.
  - apply (proj1 (GitHubUserInfo_needs_id_login_name no_conversion
                    [("id", VStr "583231"); ("login", VStr "octocat");
                     ("name", VStr "The Octocat")]
                    eq_refl eq_refl eq_refl eq_refl)
                 (VStr "583231") (VStr "583231") (VStr "octocat") (VStr "octocat")
                 (VStr "The Octocat") (VStr "The Octocat")); reflexivity.
  - apply (proj2 (GitHubUserInfo_needs_id_login_name no_conversion
                    [("id", VStr "583231"); ("name", VStr "The Octocat")]
                    eq_refl eq_refl eq_refl eq_refl)).
    right; left; reflexivity.
Defined.

(** ** The owner of a repository, further *)

(** The first piece of a split has no separator, and the string is that
    piece alone or that piece, the separator and more. *)
Lemma str_split_head sep s :
  exists o ps rest,
    str_split sep s = o :: ps /\ has_char sep o = false /\
    s = o ++ rest /\ (rest = "" \/ exists b, rest = String sep b).
Proof.
  induction s as [|c s IH]; simpl.
  - exists "", [], "". repeat split. left; reflexivity.
  - destruct (Ascii.eqb_spec c sep) as [->|Hc].
    + exists "", (str_split sep s), (String sep s). repeat split.
      right. exists s. reflexivity.
    + destruct IH as (o & ps & rest & -> & Ho & -> & Hrest).
      exists (String c o), ps, rest. repeat split; [|exact Hrest].
      simpl. rewrite Ho. apply Ascii.eqb_neq in Hc. rewrite Hc. reflexivity.
Qed.

(** X14. The owner of a validated [GitHubRepo] is always defined, never
    contains "/", and is a prefix of full_name: full_name is the owner
    alone, or the owner, a "/" and the rest.  (A full_name that is empty
    or begins with "/" has the empty owner.) *)
Theorem GitHubRepo_owner_is_a_slash_free_prefix :
  forall py data g,
    init py GitHubRepo data = Ok g ->
    exists full_name owner rest,
      getattr g "full_name" = Some (VStr full_name) /\
      GitHubRepo_owner g = Some owner /\
      has_char "/" owner = false /\
      full_name = owner ++ rest /\
      (rest = "" \/ exists b, rest = String "/" b).
Proof.
  intros py data g H.
  destruct (GitHubRepo_instance py data g H) as (fn & n & fs & ->).
  destruct (str_split_head "/" fn) as (o & ps & rest & Hs & Ho & Hfn & Hrest).
  exists fn, o, rest. split; [reflexivity|]. split; [|auto].
  unfold GitHubRepo_owner. simpl. rewrite Hs. reflexivity.
Qed.

(** A full_name that begins with "/". *)
Lemma GitHubRepo_owner_is_a_slash_free_prefix_witness :
  exists full_name owner rest,
    getattr (VModel "GitHubRepo" [("full_name", VStr "/Hello-World"); ("name", VStr "x")]
               ["full_name"; "name"]) "full_name" = Some (VStr full_name) /\
    GitHubRepo_owner
      (VModel "GitHubRepo" [("full_name", VStr "/Hello-World"); ("name", VStr "x")]
         ["full_name"; "name"]) = Some owner /\
    has_char "/" owner = false /\
    full_name = owner ++ rest /\
    (rest = "" \/ exists b, rest = String "/" b).
Proof.
  exact (GitHubRepo_owner_is_a_slash_free_prefix no_conversion
           [("full_name", VStr "/Hello-World"); ("name", VStr "x")] _ eq_refl).
Defined.

Section Webhook.
Variable py : PyBuiltins.

Lemma GitHubRepo_init data fn n :
  dict_get "full_name" data = Some (VStr fn) -> dict_get "name" data = Some (VStr n) ->
  init py GitHubRepo data =
    Ok (VModel "GitHubRepo" [("full_name", VStr fn); ("name", VStr n)]
          ["full_name"; "name"]).
Proof.
  intros Hf Hn. run_init GitHubRepo. rewrite Hf, Hn. reflexivity.
Qed.

(** Repository dicts validate to instances, one by one. *)
Lemma repositories_validate l :
  Forall (fun x => exists d fn n,
              x = VDict d /\ dict_get "full_name" d = Some (VStr fn) /\
              dict_get "name" d = Some (VStr n)) l ->
  exists rs,
    Forall2 (fun x r => validate py GitHubRepo x = Ok r) l rs /\
    Forall2 (fun x r => exists d fn,
                 x = VDict d /\ dict_get "full_name" d = Some (VStr fn) /\
                 getattr r "full_name" = Some (VStr fn) /\
                 GitHubRepo_owner r = nth_error (str_split "/" fn) 0) l rs.
Proof.
  induction 1 as [|x l (d & fn & n & -> & Hf & Hn) _ (rs & IH1 & IH2)].
  - exists []. split; constructor.
  - exists (VModel "GitHubRepo" [("full_name", VStr fn); ("name", VStr n)]
              ["full_name"; "name"] :: rs).
    split; constructor; try assumption.
    + change (validate py GitHubRepo (VDict d)) with (init py GitHubRepo d).
      apply GitHubRepo_init; assumption.
    + exists d, fn. repeat split. exact Hf.
Qed.
End Webhook.

(** X15. The repositories of a webhook payload become [GitHubRepo]
    instances whose owner is derived: given sender, action and a list of
    repository dicts (each with a str full_name and a str name) for
    repositories_added, the payload validates, repositories_added holds
    one instance for each dict, in order, and the owner of each instance
    is the first "/"-piece of the full_name of its dict. *)
Theorem webhook_repositories_have_owners :
  forall py data sender action l,
    dict_get "sender" data = Some (VDict sender) ->
    dict_get "action" data = Some (VStr action) ->
    dict_get "issue" data = None ->
    dict_get "repository" data = None ->
    dict_get "repositories" data = None ->
    dict_get "repositories_added" data = Some (VList l) ->
    dict_get "repositories_removed" data = None ->
    Forall (fun x => exists d fn n,
                x = VDict d /\ dict_get "full_name" d = Some (VStr fn) /\
                dict_get "name" d = Some (VStr n)) l ->
    exists g rs,
      init py GitHubAppWebhookResponse data = Ok g /\
      getattr g "repositories_added" = Some (VList rs) /\
      Forall2 (fun x r => exists d fn,
                   x = VDict d /\ dict_get "full_name" d = Some (VStr fn) /\
                   getattr r "full_name" = Some (VStr fn) /\
                   GitHubRepo_owner r = nth_error (str_split "/" fn) 0) l rs.
Proof.
  intros py data sender action l Hs Ha H1 H2 H3 H4 H5 Hl.
  destruct (repositories_validate py l Hl) as (rs & Hval & Hown).
  exists (VModel "GitHubAppWebhookResponse"
            [("sender", VDict sender); ("action", VStr action);
             ("issue", VNone); ("repository", VNone); ("repositories", VNone);
             ("repositories_added", VList rs); ("repositories_removed", VNone)]
            ["sender"; "action"; "repositories_added"]), rs.
  split; [|split; [reflexivity | exact Hown]].
  run_init GitHubAppWebhookResponse.
  rewrite Hs, Ha, H1, H2, H3, H4, H5.
  change (validate py (TOptional (TList GitHubRepo)) (VList l))
    with (sequence_validator (validate py GitHubRepo) (VList l)).
  unfold sequence_validator.
  rewrite (validate_items_pass_each py GitHubRepo 0 l rs Hval). reflexivity.
Qed.

(** An "added" event with two repositories. *)
Lemma webhook_repositories_have_owners_witness :
  exists g rs,
    init no_conversion GitHubAppWebhookResponse
      [("action", VStr "added"); ("sender", VDict [("login", VStr "octocat")]);
       ("repositories_added",
        VList [VDict [("full_name", VStr "octocat/Hello-World"); ("name", VStr "Hello-World")];
               VDict [("full_name", VStr "github/docs"); ("name", VStr "docs")]])] = Ok g /\
    getattr g "repositories_added" = Some (VList rs) /\
    List.length rs = 2%nat.
Proof.
  destruct (webhook_repositories_have_owners no_conversion
      [("action", VStr "added"); ("sender", VDict [("login", VStr "octocat")]);
       ("repositories_added",
        VList [VDict [("full_name", VStr "octocat/Hello-World"); ("name", VStr "Hello-World")];
               VDict [("full_name", VStr "github/docs"); ("name", VStr "docs")]])]
      [("login", VStr "octocat")] "added"
      [VDict [("full_name", VStr "octocat/Hello-World"); ("name", VStr "Hello-World")];
       VDict [("full_name", VStr "github/docs"); ("name", VStr "docs")]]
      eq_refl eq_refl eq_refl eq_refl eq_refl eq_refl eq_refl)
    as (g & rs & Hg & Hattr & Hown).
  - repeat constructor; do 3 eexists; repeat split; reflexivity.
  - exists g, rs. split; [exact Hg|]. split; [exact Hattr|].
    symmetry. exact (Forall2_length Hown).
Defined.

(** ** [RepoSort], further *)


(** ** Encodings *)

(** The encoding of any value has no instance inside. *)
Lemma to_dict_plain v : plain (to_dict v) = true.
Proof.
  induction v as [| | | | | |l IH|d IH|c attrs fs IH] using pyval_nested_ind;
    simpl; try reflexivity.
  - induction IH as [|x l Hx _ IHl]; simpl; [reflexivity|]. rewrite Hx, IHl. reflexivity.
  - induction IH as [|x l Hx _ IHl]; simpl; [reflexivity|]. rewrite Hx, IHl. reflexivity.
  - induction IH as [|x l Hx _ IHl]; simpl; [reflexivity|]. rewrite Hx, IHl. reflexivity.
Qed.

(** X17. The encoding of an instance contains no instance, at any depth:
    the classes nested in it (the monthly counts of a [RepoDetail], the
    two parts of a [Config], the payload of an envelope) are encoded as
    dicts; and encoding an encoding changes nothing. *)
Theorem encoding_has_no_instance_inside :
  forall v, plain (to_dict v) = true /\ to_dict (to_dict v) = to_dict v.
Proof.
  intros v. split; [apply to_dict_plain|].
  apply plain_to_dict, to_dict_plain.
Qed.

(** ** Validating an encoding *)

Lemma classes_are_well_declared :
  forallb well_declared
    [RepoQuery; RepoBrief; MonthlyCount; RepoDetail; UserSearchedRepo; UpdateConfig;
     RepoConfig; Config; GFIBrief; TrainingResult; GitHubRepo;
     GitHubAppWebhookResponse; GitHubUserInfo] = true.
Proof. reflexivity. Qed.

Lemma GFIResponse_well_declared T :
  well_declared (GFIResponse T) = well_declared T.
Proof.
  unfold GFIResponse. cbn -[well_declared exactly_typed].
  cbn [well_declared]. cbn [distinct map fname existsb negb andb forallb annotation
                            field_required default get_default scalar orb exactly_typed].
  destruct T; cbn; rewrite ?andb_true_r; reflexivity.
Qed.

Lemma distinct_NoDup names : distinct names = true -> NoDup names.
Proof.
  induction names as [|k names IH]; simpl; intros H; constructor.
  - apply andb_true_iff in H as [H _]. apply negb_true_iff in H.
    intros Hin. assert (existsb (String.eqb k) names = true); [|congruence].
    apply existsb_exists. exists k. split; [exact Hin | apply String.eqb_refl].
  - apply andb_true_iff in H as [_ H]. exact (IH H).
Qed.

Lemma scalar_to_dict d : scalar d = true -> to_dict d = d.
Proof. destruct d; try discriminate; reflexivity. Qed.

Lemma scalar_restrict t d : scalar d = true -> restrict t d = d.
Proof.
  intros H. induction t as [| | | | | |t IHt|t IHt| |n fields IH] using ftype_nested_ind;
    simpl; try reflexivity; try exact IHt; destruct d; try discriminate; reflexivity.
Qed.

Lemma plain_dict_get (d : pydict) k x :
  forallb (fun kv => plain (snd kv)) d = true -> dict_get k d = Some x -> plain x = true.
Proof.
  induction d as [|[k' y] d IH]; simpl; intros H Hget; [discriminate|].
  apply andb_true_iff in H as [H1 H2].
  destruct (String.eqb k k'); [injection Hget as <-; exact H1 | exact (IH H2 Hget)].
Qed.

Lemma Forall2_in_combine {A B} (R R' : A -> B -> Prop) l1 l2 :
  Forall2 R l1 l2 ->
  (forall a b, In (a, b) (combine l1 l2) -> R a b -> R' a b) ->
  Forall2 R' l1 l2.
Proof.
  induction 1 as [|a b l1 l2 Hab _ IH]; intros H; constructor.
  - apply H; [left; reflexivity | exact Hab].
  - apply IH. intros a' b' Hin. apply H. right; exact Hin.
Qed.

Lemma in_combine_names (fields : list (field_decl ftype)) (vs : list pyval) f w :
  In (f, w) (combine fields vs) ->
  In (fname f, w) (combine (map (@fname ftype) fields) vs).
Proof.
  revert vs. induction fields as [|g fields IH]; intros [|v vs] H; simpl in *;
    try contradiction.
  destruct H as [H|H]; [injection H as -> ->; left; reflexivity | right; exact (IH _ H)].
Qed.

(** With distinct keys, the encoded attributes are found under their keys. *)
Lemma dict_get_encoded names (vs : list pyval) k w :
  NoDup names -> In (k, w) (combine names vs) ->
  dict_get k (map (fun kv => (fst kv, to_dict (snd kv))) (combine names vs))
    = Some (to_dict w).
Proof.
  revert vs. induction names as [|k' names IH]; intros [|v vs] Hnd Hin; simpl in *;
    try contradiction.
  inversion Hnd as [|x l Hnotin Hnd']; subst.
  destruct Hin as [Hin|Hin].
  - injection Hin as -> ->. rewrite String.eqb_refl. reflexivity.
  - destruct (String.eqb_spec k k') as [->|_].
    + exfalso. apply Hnotin. exact (in_combine_l _ _ _ _ Hin).
    + exact (IH vs Hnd' Hin).
Qed.

Section Revalidation.
Variable py : PyBuiltins.
Variable get : string -> option pyval.

Lemma encoded_fields_exactly_typed (fields : list (field_decl ftype)) vs :
  Forall2 (fun f w => get (fname f) = Some (to_dict w) /\
                      exactly_typed (annotation f) (to_dict w) = true /\
                      restrict (annotation f) (to_dict w) = to_dict w) fields vs ->
  forallb (fun f => match get (fname f) with
                    | Some x => exactly_typed (annotation f) x
                    | None => negb (field_required f)
                    end) fields = true /\
  map (fun f => (fname f,
                 match get (fname f) with
                 | Some x => restrict (annotation f) x
                 | None => to_dict (get_default f)
                 end)) fields =
  map (fun kv => (fst kv, to_dict (snd kv))) (combine (map (@fname ftype) fields) vs).
Proof.
  induction 1 as [|f w fields vs (Hg & He & Hr) _ [IH1 IH2]]; simpl.
  - split; reflexivity.
  - rewrite Hg, He, Hr, IH1, IH2. split; reflexivity.
Qed.
End Revalidation.

Section Revalidation2.
Variable py : PyBuiltins.

(** [dict(v)] takes its values from [v]: it puts no instance where there
    was none. *)
Hypothesis kwargs_plain :
  forall v d, plain v = true -> kwargs_of_iterable py v = Some d ->
              forallb (fun kv => plain (snd kv)) d = true.

(** The encoding of what validation returns is exactly typed, and
    restricted already. *)
Lemma encoding_exactly_typed t :
  well_declared t = true ->
  forall v v', plain v = true -> validate py t v = Ok v' ->
               exactly_typed t (to_dict v') = true /\
               restrict t (to_dict v') = to_dict v'.
Proof.
  induction t as [| | | | | |t IHt|t IHt| |n fields IH] using ftype_nested_ind;
    intros Hwd v v' Hp H.
  - injection H as <-. split; [apply to_dict_plain | reflexivity].
  - pose proof (validate_well_typed py _ _ _ H) as Hw.
    destruct v'; try discriminate Hw. split; reflexivity.
  - pose proof (validate_well_typed py _ _ _ H) as Hw.
    destruct v'; try discriminate Hw. split; reflexivity.
  - pose proof (validate_well_typed py _ _ _ H) as Hw.
    destruct v'; try discriminate Hw. split; reflexivity.
  - pose proof (validate_well_typed py _ _ _ H) as Hw.
    destruct v'; try discriminate Hw. split; reflexivity.
  - pose proof (validate_well_typed py _ _ _ H) as Hw.
    destruct v'; try discriminate Hw. split; reflexivity.
  - simpl in Hwd.
    assert (Hcase : v' = VNone \/
              (exactly_typed t (to_dict v') = true /\ restrict t (to_dict v') = to_dict v')).
    { destruct v; simpl in H; try (left; injection H as <-; reflexivity);
        right; exact (IHt Hwd _ _ Hp H). }
    destruct Hcase as [->|[He Hr]].
    + split; [reflexivity | apply restrict_None].
    + split; [|exact Hr]. simpl. destruct (to_dict v'); try reflexivity; exact He.
  - simpl in Hwd. destruct v; simpl in H; unfold fail in H; try discriminate.
    destruct (validate_items (validate py t) 0 l) as [rs es] eqn:E.
    destruct es; [|discriminate]. injection H as <-.
    pose proof (validate_items_passed py t 0 l rs E) as HF.
    simpl in Hp. clear E.
    assert (Hall : forallb (exactly_typed t) (map to_dict rs) = true /\
                   map (restrict t) (map to_dict rs) = map to_dict rs).
    { induction HF as [|x r l rs Hx _ IHF]; simpl; [split; reflexivity|].
      simpl in Hp. apply andb_true_iff in Hp as [Hp1 Hp2].
      destruct (IHt Hwd _ _ Hp1 Hx) as [He Hr].
      destruct (IHF Hp2) as [He' Hr'].
      rewrite He, Hr, He', Hr'. split; reflexivity. }
    destruct Hall as [He Hr]. simpl. rewrite He, Hr. split; reflexivity.
  - pose proof (validate_well_typed py _ _ _ H) as Hw.
    destruct v'; try discriminate Hw. simpl. split; [|reflexivity].
    clear. induction d as [|[k x] d IHd]; simpl; [reflexivity|].
    rewrite to_dict_plain, IHd. reflexivity.
  - simpl in Hwd. apply andb_true_iff in Hwd as [Hnd Hwd].
    apply distinct_NoDup in Hnd.
    assert (Hinit : forall d, forallb (fun kv => plain (snd kv)) d = true ->
              model_init (fun a x => validate py a x) n fields d = Ok v' ->
              exactly_typed (TModel n fields) (to_dict v') = true /\
              restrict (TModel n fields) (to_dict v') = to_dict v').
    { intros d Hd Hi. unfold model_init in Hi.
      destruct (validate_fields (fun a x => validate py a x) fields d)
        as [[values fs] errs] eqn:E.
      destruct errs; [|discriminate]. injection Hi as <-.
      destruct (validate_fields_passed (fun a x => validate py a x) (validate_errors py)
                  fields d values fs E) as (vs & HF & -> & _).
      assert (HF' : Forall2 (fun f w =>
                exactly_typed (annotation f) (to_dict w) = true /\
                restrict (annotation f) (to_dict w) = to_dict w) fields vs).
      { clear E Hnd H. induction HF as [|f w fields vs Hf _ IHF]; constructor.
        - inversion IH as [|f' fs' IHf _]; subst.
          simpl in Hwd. apply andb_true_iff in Hwd as [Hwf _].
          apply andb_true_iff in Hwf as [Hwa Hdef].
          unfold field_check in Hf.
          destruct (dict_get (fname f) d) as [x|] eqn:Ex.
          + destruct (validate py (annotation f) x) as [w'|] eqn:Ev; [|discriminate].
            injection Hf as <-.
            exact (IHf Hwa x w' (plain_dict_get d _ x Hd Ex) Ev).
          + destruct (field_required f); [discriminate|]. injection Hf as <-.
            simpl in Hdef. apply andb_true_iff in Hdef as [Hs He].
            rewrite (scalar_to_dict _ Hs). split; [exact He | apply scalar_restrict, Hs].
        - inversion IH; subst. simpl in Hwd. apply andb_true_iff in Hwd as [_ Hwd].
          apply IHF; assumption. }
      cbn [to_dict exactly_typed restrict].
      set (enc := map (fun kv => (fst kv, to_dict (snd kv)))
                      (combine (map (@fname ftype) fields) vs)).
      destruct (encoded_fields_exactly_typed (fun k => dict_get k enc) fields vs)
        as [He Hr].
      { apply (Forall2_in_combine _ _ _ _ HF'). intros f w Hin [H1 H2].
        split; [|split; assumption].
        apply dict_get_encoded; [exact Hnd | apply in_combine_names; exact Hin]. }
      rewrite He, Hr. split; reflexivity. }
    destruct v; simpl in H; unfold fail in H; try discriminate.
    + destruct (kwargs_of_iterable py (VStr s)) as [d|] eqn:Ek; [|discriminate].
      exact (Hinit d (kwargs_plain _ _ Hp Ek) H).
    + destruct (kwargs_of_iterable py (VList l)) as [d|] eqn:Ek; [|discriminate].
      exact (Hinit d (kwargs_plain _ _ Hp Ek) H).
    + exact (Hinit d Hp H).
Qed.
End Revalidation2.

(** X18. What a class encodes, it validates again, to the same
    encoding.  Take a class declared as those of this module are and a
    raw input (with no instance inside) from which it is built: the
    encoding of the instance is accepted by the constructor too, and the
    instance built from it has the same encoding.  Values that the first
    validation converted (a count given as a str) are not converted
    again, defaults that it filled in are read back, and nested classes
    go through the same round. *)
Theorem encoding_validates_to_itself :
  forall py n fields data g,
    (forall v d, plain v = true -> kwargs_of_iterable py v = Some d ->
                 forallb (fun kv => plain (snd kv)) d = true) ->
    well_declared (TModel n fields) = true ->
    forallb (fun kv => plain (snd kv)) data = true ->
    init py (TModel n fields) data = Ok g ->
    exists enc g',
      to_dict g = VDict enc /\
      init py (TModel n fields) enc = Ok g' /\
      to_dict g' = to_dict g.
Proof.
  intros py n fields data g Hk Hwd Hp H.
  destruct (encoding_exactly_typed py Hk (TModel n fields) Hwd (VDict data) g Hp H)
    as [He Hr].
  destruct (init_passed py _ data g H) as (vs & _ & ->).
  cbn [to_dict] in He, Hr |- *.
  eexists.
  destruct (exactly_typed_round_trip py (TModel n fields) _ He) as (g' & Hg' & Hd).
  exists g'. split; [reflexivity|]. split; [exact Hg'|].
  rewrite Hd. exact Hr.
Qed.

(** A [Config] given with an interval as a str and a flag as a word:
    its encoding, with the int and the bool, builds a [Config] of the same
    encoding. *)
Lemma encoding_validates_to_itself_witness :
  exists g enc g',
    init no_conversion Config
      [("update_config",
        VDict [("task_id", VStr "sync"); ("interval", VStr "60");
               ("begin_time", VDatetime jan_2023)]);
       ("repo_config",
        VDict [("newcomer_threshold", VInt 5); ("gfi_threshold", VFloat (S754_zero false));
               ("need_comment", VStr "yes"); ("issue_tag", VStr "good first issue")])]
      = Ok g /\
    to_dict g = VDict enc /\
    dict_get "update_config" enc =
      Some (VDict [("task_id", VStr "sync"); ("interval", VInt 60);
                   ("begin_time", VDatetime jan_2023)]) /\
    init no_conversion Config enc = Ok g' /\
    to_dict g' = to_dict g.
Proof.
  eexists.
  assert (Hk : forall v d, plain v = true -> kwargs_of_iterable no_conversion v = Some d ->
                           forallb (fun kv => plain (snd kv)) d = true)
    by (intros v d _ Hd; discriminate Hd).
  destruct (encoding_validates_to_itself no_conversion "Config" (class_fields Config)
              [("update_config",
                VDict [("task_id", VStr "sync"); ("interval", VStr "60");
                       ("begin_time", VDatetime jan_2023)]);
               ("repo_config",
                VDict [("newcomer_threshold", VInt 5);
                       ("gfi_threshold", VFloat (S754_zero false));
                       ("need_comment", VStr "yes");
                       ("issue_tag", VStr "good first issue")])]
              _ Hk eq_refl eq_refl eq_refl) as (enc & g' & Henc & Hg' & Hd).
  exists enc, g'. split; [reflexivity|]. split; [exact Henc|].
  split; [|split; [exact Hg' | exact Hd]].
  cbn in Henc. injection Henc as <-. reflexivity.
Defined.

(** ** All errors, and classes that share fields *)



(** X20. A [RepoDetail] is a [RepoBrief] with four lists more, and a
    [RepoBrief] a [RepoQuery] with three fields more: an input from which
    a [RepoDetail] is built also builds a [RepoBrief] and a [RepoQuery],
    and they hold the same values as the [RepoDetail] for the fields they
    share. *)
Theorem RepoDetail_input_builds_RepoBrief_and_RepoQuery :
  forall py data g,
    init py RepoDetail data = Ok g ->
    exists b q,
      init py RepoBrief data = Ok b /\
      init py RepoQuery data = Ok q /\
      (forall k, In k (field_names RepoBrief) -> getattr b k = getattr g k) /\
      (forall k, In k (field_names RepoQuery) -> getattr q k = getattr g k).
Proof.
  intros py data g H.
  destruct (init_passed py RepoDetail data g H) as (vs & HF & ->).
  cbn [class_fields RepoDetail] in HF.
  inversion HF as [|f1 w1 l1 r1 H1 HF1]; subst; clear HF.
  inversion HF1 as [|f2 w2 l2 r2 H2 HF2]; subst; clear HF1.
  inversion HF2 as [|f3 w3 l3 r3 H3 HF3]; subst; clear HF2.
  inversion HF3 as [|f4 w4 l4 r4 H4 HF4]; subst; clear HF3.
  inversion HF4 as [|f5 w5 l5 r5 H5 HF5]; subst; clear HF4.
  pose proof (Forall2_length HF5) as Hlen.
  exists (VModel "RepoBrief"
            (combine (field_names RepoBrief) [w1; w2; w3; w4; w5])
            (map (@fname ftype) (filter (field_is_set data) (class_fields RepoBrief)))),
         (VModel "RepoQuery"
            (combine (field_names RepoQuery) [w2; w1])
            (map (@fname ftype) (filter (field_is_set data) (class_fields RepoQuery)))).
  split; [|split; [|split]].
  - apply (init_pass py RepoBrief data [w1; w2; w3; w4; w5]).
    repeat constructor; assumption.
  - apply (init_pass py RepoQuery data [w2; w1]).
    repeat constructor; assumption.
  - intros k Hk. cbn in Hk.
    destruct Hk as [<-|[<-|[<-|[<-|[<-|[]]]]]]; reflexivity.
  - intros k Hk. cbn in Hk.
    destruct Hk as [<-|[<-|[]]]; reflexivity.
Qed.

(** A [RepoDetail] input with one month of stars. *)
Lemma RepoDetail_input_builds_RepoBrief_and_RepoQuery_witness :
  exists b q,
    init no_conversion RepoBrief
      [("name", VStr "Hello-World"); ("owner", VStr "octocat");
       ("language", VStr "Python"); ("topics", VList [VStr "tutorial"]);
       ("monthly_stars", VList [VDict [("month", VDatetime jan_2023); ("count", VInt 5)]]);
       ("monthly_commits", VList []); ("monthly_issues", VList []);
       ("monthly_pulls", VList [])] = Ok b /\
    init no_conversion RepoQuery
      [("name", VStr "Hello-World"); ("owner", VStr "octocat");
       ("language", VStr "Python"); ("topics", VList [VStr "tutorial"]);
       ("monthly_stars", VList [VDict [("month", VDatetime jan_2023); ("count", VInt 5)]]);
       ("monthly_commits", VList []); ("monthly_issues", VList []);
       ("monthly_pulls", VList [])] = Ok q /\
    getattr b "language" = Some (VStr "Python") /\
    getattr q "owner" = Some (VStr "octocat").
Proof.
  destruct (RepoDetail_input_builds_RepoBrief_and_RepoQuery no_conversion
      [("name", VStr "Hello-World"); ("owner", VStr "octocat");
       ("language", VStr "Python"); ("topics", VList [VStr "tutorial"]);
       ("monthly_stars", VList [VDict [("month", VDatetime jan_2023); ("count", VInt 5)]]);
       ("monthly_commits", VList []); ("monthly_issues", VList []);
       ("monthly_pulls", VList [])] _ eq_refl) as (b & q & Hb & Hq & Hbg & Hqg).
  exists b, q. split; [exact Hb|]. split; [exact Hq|]. split.
  - rewrite (Hbg "language"); [reflexivity | cbn; auto].
  - rewrite (Hqg "owner"); [reflexivity | cbn; auto].
Defined.
